(** * RAMS: receipt ledger, attendee forms, access-group migration and the
      MFF plugin's attendee/group adjustments

    A shallow embedding of
      - [uber/models/commerce.py]      (module [Commerce]),
      - [uber/forms/attendee.py]       (module [Forms]),
      - [alembic/versions/1ad8716bfc74_...py] (module [Migration]),
      - [mff_rams_plugin/models.py]    (module [Plugin]).

    Integer columns are [Z]; timestamps ([UTCDateTime]) are [Z] instants;
    text columns are [option string] ([None] is Python's [None] / SQL NULL);
    Python exceptions are values of [exn]. *)

From Stdlib Require Import ZArith List String Bool Lia QArith Qround.
From Stdlib Require Sorted DecimalString.
From stdpp Require Import base option list gmap strings.
Import ListNotations.

#[local] Open Scope string_scope.
#[local] Open Scope list_scope.
#[local] Open Scope Z_scope.

(** ** Python prelude *)

Module Py.

(** The exceptions the embedded code can raise. *)
Inductive exn : Type :=
| AttributeError (attr : string)
| UnboundLocalError (name : string)
| KeyError (key : string)
| NameError (name : string)
| IndexError
| StripeError (msg : string).

(** A computation that returns or raises. *)
Definition result (A : Type) : Type := (exn + A)%type.

(** The values that flow through [and] / [or] / [not] in the sources. *)
Inductive value : Type :=
| VNone
| VBool (b : bool)
| VInt (z : Z)
| VStr (s : string)
| VDatetime (t : Z).

(** Python truth value testing. *)
Definition truthy (v : value) : bool :=
  match v with
  | VNone => false
  | VBool b => b
  | VInt z => negb (z =? 0)
  | VStr s => negb (String.eqb s "")
  | VDatetime _ => true
  end.

(** [a and b], [a or b]: the result is one of the operands. *)
Definition and_ (a b : value) : value := if truthy a then b else a.
Definition or_ (a b : value) : value := if truthy a then a else b.
Definition not_ (a : value) : value := VBool (negb (truthy a)).

(** A text attribute read as a Python value. *)
Definition text (s : option string) : value :=
  match s with Some s => VStr s | None => VNone end.

(** A nullable datetime attribute read as a Python value. *)
Definition datetime (t : option Z) : value :=
  match t with Some t => VDatetime t | None => VNone end.

(** The builtin [sum] on a list of ints: left to right, starting at 0. *)
Definition sum_ints (l : list Z) : Z := fold_left Z.add l 0.

(** [x in l] on a list of ints. *)
Definition contains (x : Z) (l : list Z) : bool := existsb (Z.eqb x) l.

(** [sorted(l, key=key, reverse=reverse)]: a stable sort.  An element is
    inserted in front of the already sorted later elements, and stays behind
    those only that come strictly earlier in the requested order, so equal
    keys keep their original order (also under [reverse=True]). *)
Fixpoint insert_sorted {A : Type} (earlier : A -> A -> bool) (x : A) (l : list A) : list A :=
  match l with
  | [] => [x]
  | y :: l' => if earlier y x then y :: insert_sorted earlier x l' else x :: y :: l'
  end.

Definition sorted {A : Type} (key : A -> Z) (reverse : bool) (l : list A) : list A :=
  fold_right
    (insert_sorted (fun y x => if reverse then key x <? key y else key y <? key x))
    [] l.

(** [l[0]] *)
Definition first {A : Type} (l : list A) : result A :=
  match l with
  | [] => inl IndexError
  | x :: _ => inr x
  end.

(** The mathematical sum of [f] over a list, used to state the claims. *)
Fixpoint sum_over {A : Type} (f : A -> Z) (l : list A) : Z :=
  match l with
  | [] => 0
  | x :: l' => f x + sum_over f l'
  end.

End Py.

(** ** uber/models/commerce.py *)

Module Commerce.
Import Py.

Record ReceiptItem : Type := {
  item_amount : Z;
  item_count : Z;
  item_added : Z;
  item_closed : option Z;
  item_who : option string;
  item_desc : option string
}.

Record ReceiptTransaction : Type := {
  intent_id : option string;
  charge_id : option string;
  refund_id : option string;
  method : Z;
  amount : Z;
  refunded : option Z;
  added : Z;
  cancelled : option Z;
  who : option string;
  desc : option string
}.

(** A receipt with the two relationship collections that the backrefs
    [receipt_items] and [receipt_txns] give it: the rows whose [receipt_id]
    is this receipt's id. *)
Record ModelReceipt : Type := {
  invoice_num : Z;
  owner_id : string;
  owner_model : option string;
  closed : option Z;
  receipt_items : list ReceiptItem;
  receipt_txns : list ReceiptTransaction
}.

(** [ReceiptItem.total_amount] *)
Definition total_amount (self : ReceiptItem) : Z :=
  item_amount self * item_count self.

(** [ReceiptTransaction.receipt_share]; [receipt] is [self.receipt], the
    receipt the transaction belongs to. *)
Definition receipt_share (receipt : ModelReceipt) (self : ReceiptTransaction) : Z :=
  Z.min (amount self)
        (sum_ints (map total_amount
                  (List.filter (fun item => item_added item <=? added self)
                               (receipt_items receipt)))).

(** [ReceiptTransaction.is_pending_charge]: the value of
    [self.intent_id and not self.charge_id and not self.cancelled]. *)
Definition is_pending_charge (self : ReceiptTransaction) : value :=
  and_ (and_ (text (intent_id self)) (not_ (text (charge_id self))))
       (not_ (datetime (cancelled self))).

(** [ReceiptTransaction.stripe_id] *)
Definition stripe_id (self : ReceiptTransaction) : value :=
  or_ (text (charge_id self)) (text (intent_id self)).

Section Receipt.

(** [c.STRIPE], the payment-method code of the configuration. *)
Variable STRIPE : Z.

Definition cancelled_txns (self : ModelReceipt) : list ReceiptTransaction :=
  List.filter (fun txn => truthy (datetime (cancelled txn))) (receipt_txns self).

Definition pending_txns (self : ModelReceipt) : list ReceiptTransaction :=
  List.filter (fun txn => truthy (is_pending_charge txn)) (receipt_txns self).

Definition pending_total (self : ModelReceipt) : Z :=
  sum_ints (map amount
           (List.filter (fun txn => truthy (is_pending_charge txn)) (receipt_txns self))).

(** The condition of the comprehension in [payment_total]:
    [not txn.cancelled and (txn.charge_id or txn.method != c.STRIPE and txn.amount > 0)]. *)
Definition counts_as_payment (txn : ReceiptTransaction) : value :=
  and_ (not_ (datetime (cancelled txn)))
       (or_ (text (charge_id txn))
            (and_ (VBool (negb (method txn =? STRIPE))) (VBool (amount txn >? 0)))).

(** [payment_total], the in-Python side of the hybrid property. *)
Definition payment_total (self : ModelReceipt) : Z :=
  sum_ints (map (receipt_share self)
           (List.filter (fun txn => truthy (counts_as_payment txn)) (receipt_txns self))).

(** SQL [SUM] over the selected rows: NULL on no rows. *)
Definition sql_sum (rows : list Z) : option Z :=
  match rows with
  | [] => None
  | _ => Some (fold_left Z.add rows 0)
  end.

(** [payment_total.expression]: the scalar subquery
    [SELECT sum(amount) FROM receipt_transaction WHERE receipt_id = id
     AND cancelled IS NULL
     AND (charge_id IS NOT NULL OR (method != STRIPE AND amount > 0))],
    over the rows of this receipt. *)
Definition payment_total_expression (cls : ModelReceipt) : option Z :=
  sql_sum (map amount
               (List.filter
                  (fun row =>
                     match cancelled row with None => true | Some _ => false end
                     && ((match charge_id row with Some _ => true | None => false end)
                         || (negb (method row =? STRIPE) && (amount row >? 0))))
                  (receipt_txns cls))).

(** [refund_total], the in-Python side of the hybrid property. *)
Definition refund_total (self : ModelReceipt) : Z :=
  sum_ints (map amount (List.filter (fun txn => amount txn <? 0) (receipt_txns self))) * -1.

Definition item_total (self : ModelReceipt) : Z :=
  sum_ints (map (fun item => item_amount item * item_count item) (receipt_items self)).

Definition txn_total (self : ModelReceipt) : Z :=
  payment_total self - refund_total self.

Definition current_receipt_amount (self : ModelReceipt) : Z :=
  item_total self - txn_total self.

Definition current_amount_owed (self : ModelReceipt) : Z :=
  Z.max 0 (current_receipt_amount self).

(** [last_incomplete_txn]; the inner [option] is Python's [None]. *)
Definition last_incomplete_txn (self : ModelReceipt) : result (option ReceiptTransaction) :=
  match pending_txns self with
  | [] => inr None
  | _ :: _ =>
      match first (sorted added true (pending_txns self)) with
      | inl e => inl e
      | inr t => inr (Some t)
      end
  end.

End Receipt.

(** *** Calls to the payment processor

    The methods below talk to Stripe and to [uber.utils.Charge].  A method
    is a function from the log of the calls made so far to its outcome and
    the extended log; what the processor answers is a parameter. *)

Record Refund : Type := { refund_amount : Z }.

(** [intent.charges]: a list object whose [data] holds the charges, here
    their ids.  A list object is true also when its [data] is empty. *)
Record ListObject : Type := { data : list string }.

(** A retrieved payment intent (always true); [charges] may be null. *)
Record PaymentIntent : Type := { charges : option ListObject }.

Inductive call : Type :=
| Refund_list (payment_intent : option string)
| PaymentIntent_retrieve (id : option string)
| mark_paid_from_intent_id (intent : option string) (charge : string)
| log_error (e : exn).

Definition io (A : Type) : Type := list call -> result A * list call.

Definition ret {A : Type} (x : A) : io A := fun log => (inr x, log).

(** A step that makes no call: it returns or raises on the spot. *)
Definition lift {A : Type} (r : result A) : io A := fun log => (r, log).

Definition bind {A B : Type} (m : io A) (k : A -> io B) : io B :=
  fun log =>
    match m log with
    | (inl e, log') => (inl e, log')
    | (inr x, log') => k x log'
    end.

(** [try: m except Exception as e: h e] *)
Definition try_except {A : Type} (m : io A) (h : exn -> io A) : io A :=
  fun log =>
    match m log with
    | (inl e, log') => h e log'
    | (inr x, log') => (inr x, log')
    end.

(** Perform one call and receive the given answer. *)
Definition perform {A : Type} (c : call) (answer : result A) : io A :=
  fun log => (answer, log ++ [c]).

Notation "'do' x <- m ; k" := (bind m (fun x => k))
  (at level 10, x name, m at level 100, k at level 200).

Definition set_refunded (self : ReceiptTransaction) (v : option Z) : ReceiptTransaction :=
  {| intent_id := intent_id self; charge_id := charge_id self;
     refund_id := refund_id self; method := method self; amount := amount self;
     refunded := v; added := added self; cancelled := cancelled self;
     who := who self; desc := desc self |}.

Section Stripe.

(** What [stripe.Refund.list(payment_intent=...)] yields when iterated, and
    what [stripe.PaymentIntent.retrieve] returns; either may raise. *)
Variable stripe_Refund_list : option string -> result (list Refund).
Variable stripe_PaymentIntent_retrieve : option string -> result PaymentIntent.

(** [uber.utils.Charge.mark_paid_from_intent_id] and the type of its result. *)
Variable Paid : Type.
Variable Charge_mark_paid_from_intent_id : option string -> string -> result Paid.

(** [update_amount_refunded]: returns the transaction as the method leaves it. *)
Definition update_amount_refunded (self : ReceiptTransaction) : io ReceiptTransaction :=
  if negb (truthy (text (intent_id self))) then ret self
  else
    do refunds <- perform (Refund_list (intent_id self))
                          (stripe_Refund_list (intent_id self));
    let refunded_total :=
      fold_left (fun total refund => total + refund_amount refund) refunds 0 in
    ret (set_refunded self (Some refunded_total)).

Definition get_stripe_intent (self : ReceiptTransaction) : io (option PaymentIntent) :=
  if negb (truthy (stripe_id self)) then ret None
  else
    try_except
      (do intent <- perform (PaymentIntent_retrieve (intent_id self))
                            (stripe_PaymentIntent_retrieve (intent_id self));
       ret (Some intent))
      (fun e => do logged <- perform (log_error e) (inr tt); ret None).

(** [check_paid_from_stripe]: the transaction as the method leaves it, and
    the returned value ([None], or what [mark_paid_from_intent_id] returns). *)
Definition check_paid_from_stripe (self : ReceiptTransaction)
  : io (ReceiptTransaction * option Paid) :=
  if truthy (text (charge_id self)) then ret (self, None)
  else
    do intent <- get_stripe_intent self;
    match intent with
    | None => ret (self, None)
    | Some intent =>
        match charges intent with
        | None => ret (self, None)
        | Some charges =>
            do charge <- lift (first (data charges));
            do paid <- perform (mark_paid_from_intent_id (intent_id self) charge)
                               (Charge_mark_paid_from_intent_id (intent_id self) charge);
            ret (self, Some paid)
        end
    end.

End Stripe.

End Commerce.

(** ** uber/forms/attendee.py *)

Module Forms.
Import Py.

(** The configuration values ([uber.config.c]) the forms read. *)
Record Config : Type := {
  PENDING_STATUS : Z;
  REFUNDED_STATUS : Z;
  DEFERRED_STATUS : Z;
  STAFF_BADGE : Z;
  CONTRACTOR_BADGE : Z;
  BADGE_TYPE_PRICES : gmap Z Z
}.

(** The attributes of an attendee that the forms read. *)
Record Attendee : Type := {
  is_new : bool;
  is_valid : bool;
  badge_status : Z;
  badge_type : Z;
  placeholder : bool;
  active_receipt : option Commerce.ModelReceipt;
  shifts : list Z
}.

Record Field : Type := { label : string; field_data : value }.

(** A form instance: [_fields] is the ordered dict of its bound fields (the
    declared ones, inherited ones and those mixed in), by name. *)
Record MagForm : Type := { _fields : list (string * Field) }.

(** [list(self._fields.keys())] *)
Definition keys (self : MagForm) : list string := map fst (_fields self).

Module PersonalInfo.
Section WithConfig.
Variable c : Config.

Definition get_non_admin_locked_fields (self : MagForm) (attendee : Attendee) : list string :=
  let locked_fields := [] in
  if is_new attendee || (badge_status attendee =? PENDING_STATUS c) then locked_fields
  else if negb (is_valid attendee) || (badge_status attendee =? REFUNDED_STATUS c)
  then keys self
  else if placeholder attendee then locked_fields
  else locked_fields ++ ["first_name"; "last_name"; "legal_name"; "same_legal_name"].

End WithConfig.
End PersonalInfo.

Module BadgeExtras.
Section WithConfig.
Variable c : Config.

Definition get_non_admin_locked_fields (self : MagForm) (attendee : Attendee) : list string :=
  let locked_fields := [] in
  if is_new attendee then locked_fields
  else if negb (is_valid attendee) || (badge_status attendee =? REFUNDED_STATUS c)
  then keys self
  else if (match active_receipt attendee with Some _ => true | None => false end)
          || (badge_status attendee =? DEFERRED_STATUS c)
  then locked_fields ++ ["badge_type"; "amount_extra"; "extra_donation"]
  else if bool_decide (BADGE_TYPE_PRICES c = ∅)
  then locked_fields ++ ["badge_type"]
  else locked_fields.

End WithConfig.
End BadgeExtras.

Module OtherInfo.
Section WithConfig.
Variable c : Config.

Definition get_non_admin_locked_fields (self : MagForm) (attendee : Attendee) : list string :=
  let locked_fields := [] in
  let locked_fields :=
    if negb (placeholder attendee) then locked_fields ++ ["placeholder"] else locked_fields in
  if is_new attendee then locked_fields
  else if negb (is_valid attendee) || (badge_status attendee =? REFUNDED_STATUS c)
  then keys self
  else if contains (badge_type attendee) [STAFF_BADGE c; CONTRACTOR_BADGE c]
          || (match shifts attendee with [] => false | _ :: _ => true end)
  then locked_fields ++ ["staffing"]
  else locked_fields.

End WithConfig.
End OtherInfo.

End Forms.

(** ** alembic/versions/1ad8716bfc74_add_start_and_end_time_to_access_groups.py *)

Module Migration.

Inductive sqltype : Type := UTCDateTime | Integer | UnicodeText | UUID | Boolean.

(** [sa.Column(name, type, nullable=...)] *)
Record Column : Type := { col_name : string; col_type : sqltype; nullable : bool }.

(** What the database answers to a statement it cannot run. *)
Inductive dberror : Type :=
| NoSuchTable (table : string)
| DuplicateColumn (table name : string)
| NoSuchColumn (table name : string).

Definition has_column (name : string) (cols : list Column) : bool :=
  existsb (fun col => String.eqb (col_name col) name) cols.

(** [op.add_column(table, column)]: ALTER TABLE table ADD COLUMN column. *)
Definition add_column (table : string) (column : Column) (schema : gmap string (list Column))
  : dberror + gmap string (list Column) :=
  match schema !! table with
  | None => inl (NoSuchTable table)
  | Some cols =>
      if has_column (col_name column) cols
      then inl (DuplicateColumn table (col_name column))
      else inr (<[table := cols ++ [column]]> schema)
  end.

(** [op.drop_column(table, name)]: ALTER TABLE table DROP COLUMN name. *)
Definition drop_column (table name : string) (schema : gmap string (list Column))
  : dberror + gmap string (list Column) :=
  match schema !! table with
  | None => inl (NoSuchTable table)
  | Some cols =>
      if has_column name cols
      then inr (<[table := List.filter (fun col => negb (String.eqb (col_name col) name)) cols]> schema)
      else inl (NoSuchColumn table name)
  end.

(** Run one statement after another; the first error stops the migration. *)
Definition and_then (r : dberror + gmap string (list Column))
  (op : gmap string (list Column) -> dberror + gmap string (list Column))
  : dberror + gmap string (list Column) :=
  match r with
  | inl e => inl e
  | inr schema => op schema
  end.

(** [sa.Column('start_time', residue.UTCDateTime(), nullable=True)] and
    [sa.Column('end_time', residue.UTCDateTime(), nullable=True)] *)
Definition start_time : Column :=
  {| col_name := "start_time"; col_type := UTCDateTime; nullable := true |}.

Definition end_time : Column :=
  {| col_name := "end_time"; col_type := UTCDateTime; nullable := true |}.

Definition upgrade (schema : gmap string (list Column)) : dberror + gmap string (list Column) :=
  and_then (add_column "access_group" start_time schema)
           (add_column "access_group" end_time).

Definition downgrade (schema : gmap string (list Column)) : dberror + gmap string (list Column) :=
  and_then (drop_column "access_group" "start_time" schema)
           (drop_column "access_group" "end_time").

End Migration.

(** ** mff_rams_plugin/models.py *)

Module Plugin.
Import Py.

(** The configuration values ([uber.config.c]) the plugin reads.
    [MAX_DEALERS] is [None] when it is not set. *)
Record Config : Type := {
  STAFF_BADGE : Z;
  ATTENDEE_BADGE : Z;
  FRIDAY : Z;
  SATURDAY : Z;
  SUNDAY : Z;
  STAFF_RIBBON : Z;
  VOLUNTEER_RIBBON : Z;
  NOT_PAID : Z;
  PAID_BY_GROUP : Z;
  NEED_NOT_PAY : Z;
  UNDER_13 : Z;
  AT_THE_CON : bool;
  MAX_DEALERS : option Z
}.

(** The attributes of a group that [dealer_max_badges] reads: [tables] is a
    decimal number, a rational. *)
Record Group : Type := { tables : Q }.

(** The attributes of an attendee that the plugin reads and writes.
    [ribbon] is the stored multi-choice column; [age_group_conf] is the
    configuration dict of the attendee's age group, with its integer
    entries. *)
Record Attendee : Type := {
  badge_type : Z;
  ribbon : string;
  staffing : bool;
  overridden_price : option Z;
  paid : Z;
  age_group_conf : gmap string Z
}.

Definition set_ribbon (self : Attendee) (v : string) : Attendee :=
  {| badge_type := badge_type self; ribbon := v; staffing := staffing self;
     overridden_price := overridden_price self; paid := paid self;
     age_group_conf := age_group_conf self |}.

Definition set_staffing (self : Attendee) (v : bool) : Attendee :=
  {| badge_type := badge_type self; ribbon := ribbon self; staffing := v;
     overridden_price := overridden_price self; paid := paid self;
     age_group_conf := age_group_conf self |}.

Definition set_paid (self : Attendee) (v : Z) : Attendee :=
  {| badge_type := badge_type self; ribbon := ribbon self; staffing := staffing self;
     overridden_price := overridden_price self; paid := v;
     age_group_conf := age_group_conf self |}.

(** [d[k]] on a dict *)
Definition getitem (d : gmap string Z) (k : string) : result Z :=
  match d !! k with
  | Some v => inr v
  | None => inl (KeyError k)
  end.

(** Reading a local variable that an [if]/[elif] chain may have left unbound. *)
Definition read_local (name : string) (v : option Z) : result Z :=
  match v with
  | Some z => inr z
  | None => inl (UnboundLocalError name)
  end.

Definition bind {A B : Type} (r : result A) (k : A -> result B) : result B :=
  match r with
  | inl e => inl e
  | inr x => k x
  end.

Notation "'let?' x := r 'in' k" := (bind r (fun x => k))
  (at level 10, x name, r at level 100, k at level 200).

Section WithConfig.
Variable c : Config.

(** [Group.dealer_max_badges]: [c.MAX_DEALERS or min(math.ceil(self.tables) * 3, 12)] *)
Definition dealer_max_badges (self : Group) : Z :=
  match MAX_DEALERS c with
  | Some n => if n =? 0 then Z.min (Qceiling (tables self) * 3) 12 else n
  | None => Z.min (Qceiling (tables self) * 3) 12
  end.

(** [Attendee.age_discount] *)
Definition age_discount (self : Attendee) : result Z :=
  let? in_age_group :=
    (if bool_decide (is_Some (age_group_conf self !! "val"))
     then let? val := getitem (age_group_conf self) "val" in
          inr ((val =? UNDER_13 c) && AT_THE_CON c)
     else inr false) in
  if (in_age_group : bool) then
    let discount : option Z :=
      if badge_type self =? ATTENDEE_BADGE c then Some 33
      else if contains (badge_type self) [FRIDAY c; SUNDAY c] then Some 13
      else if badge_type self =? SATURDAY c then Some 20
      else None in
    let? conf_discount := getitem (age_group_conf self) "discount" in
    let? smaller :=
      (if negb (truthy (VInt conf_discount)) then inr true
       else let? conf_discount := getitem (age_group_conf self) "discount" in
            let? discount := read_local "discount" discount in
            inr (conf_discount <? discount)) in
    if (smaller : bool) then
      let? discount := read_local "discount" discount in
      inr (- discount)
    else
      let? conf_discount := getitem (age_group_conf self) "discount" in
      inr (- conf_discount)
  else
    let? conf_discount := getitem (age_group_conf self) "discount" in
    inr (- conf_discount).

(** [ribbon_ints], the ints of the stored [ribbon]: a property the
    application gives every attendee. *)
Variable ribbon_ints_of : string -> list Z.

(** What a call of [add_opt] and of [remove_opt] does.  The module neither
    defines nor imports these names: where nothing else provides them a
    call raises [NameError]; where the application's helpers are in scope
    it returns the new stored value. *)
Variable add_opt : list Z -> Z -> result string.
Variable remove_opt : list Z -> Z -> result string.

Definition ribbon_ints (self : Attendee) : list Z := ribbon_ints_of (ribbon self).

(** [self.ribbon_intsm]: the attendee has no such attribute. *)
Definition ribbon_intsm (self : Attendee) : result (list Z) :=
  inl (AttributeError "ribbon_intsm").

(** [Attendee._staffing_badge_and_ribbon_adjustments]: the attendee as the
    adjustment leaves it, or the exception it raises. *)
Definition _staffing_badge_and_ribbon_adjustments (self : Attendee) : result Attendee :=
  let? self :=
    (if (badge_type self =? STAFF_BADGE c) || contains (STAFF_RIBBON c) (ribbon_ints self)
     then let? stored := remove_opt (ribbon_ints self) (VOLUNTEER_RIBBON c) in
          inr (set_ribbon self stored)
     else if staffing self && negb (badge_type self =? STAFF_BADGE c)
             && negb (contains (STAFF_RIBBON c) (ribbon_ints self))
             && negb (contains (VOLUNTEER_RIBBON c) (ribbon_ints self))
     then let? stored := add_opt (ribbon_ints self) (VOLUNTEER_RIBBON c) in
          inr (set_ribbon self stored)
     else inr self) in
  let? is_staff :=
    (if badge_type self =? STAFF_BADGE c then inr true
     else let? ints := ribbon_intsm self in inr (contains (STAFF_RIBBON c) ints)) in
  if (is_staff : bool) then
    let self := set_staffing self true in
    if negb (truthy (match overridden_price self with Some p => VInt p | None => VNone end))
       && contains (paid self) [NOT_PAID c; PAID_BY_GROUP c]
    then inr (set_paid self (NEED_NOT_PAY c))
    else inr self
  else inr self.

End WithConfig.

End Plugin.

(** ** uber/models/commerce.py: the views of a receipt *)

Module ReceiptViews.
Import Py Commerce.

(** An element of [self.receipt_items + self.receipt_txns]. *)
Definition entry : Type := (ReceiptItem + ReceiptTransaction)%type.

(** [x.added] on either kind of entry. *)
Definition entry_added (x : entry) : Z :=
  match x with
  | inl item => item_added item
  | inr txn => added txn
  end.

Definition all_sorted_items_and_txns (self : ModelReceipt) : list entry :=
  sorted entry_added false (map inl (receipt_items self) ++ map inr (receipt_txns self)).

Definition open_receipt_items (self : ModelReceipt) : list ReceiptItem :=
  List.filter (fun item => negb (truthy (datetime (item_closed item)))) (receipt_items self).

Definition closed_receipt_items (self : ModelReceipt) : list ReceiptItem :=
  List.filter (fun item => truthy (datetime (item_closed item))) (receipt_items self).

(** [refund_total.expression]: the scalar subquery
    [SELECT sum(amount) * -1 FROM receipt_transaction
     WHERE amount < 0 AND receipt_id = id]; NULL times -1 is NULL. *)
Definition refund_total_expression (cls : ModelReceipt) : option Z :=
  match sql_sum (map amount
                     (List.filter (fun row => amount row <? 0) (receipt_txns cls))) with
  | Some total => Some (total * -1)
  | None => None
  end.

(** The receipt once [item] has joined its [receipt_items]. *)
Definition with_item (self : ModelReceipt) (item : ReceiptItem) : ModelReceipt :=
  {| invoice_num := invoice_num self; owner_id := owner_id self;
     owner_model := owner_model self; closed := closed self;
     receipt_items := receipt_items self ++ [item];
     receipt_txns := receipt_txns self |}.

End ReceiptViews.

(** ** uber/forms/attendee.py: optional fields, consents and validators *)

Module AttendeeForms.
Import Py Forms.

(** An attendee with the further attributes these methods read. *)
Record Registrant : Type := {
  attendee : Attendee;
  group_id : option string;
  first_name : option string;
  last_name : option string;
  is_dealer : bool
}.

(** The [data] of the boolean fields of a [PersonalInfo] form. *)
Record PersonalInfoData : Type := {
  same_legal_name : bool;
  copy_email : bool;
  copy_phone : bool;
  copy_address : bool;
  no_onsite_contact : bool;
  international : bool
}.

Module PersonalInfo.

(** The two locals of [get_optional_fields]. *)
Definition unassigned_group_reg (a : Registrant) : value :=
  and_ (and_ (text (group_id a)) (not_ (text (first_name a)))) (not_ (text (last_name a))).

Definition valid_placeholder (a : Registrant) : value :=
  and_ (and_ (VBool (placeholder (attendee a))) (text (first_name a))) (text (last_name a)).

(** [get_optional_fields]; [super_optional] is what
    [super().get_optional_fields(attendee)] returns. *)
Definition get_optional_fields (super_optional : list string) (self : PersonalInfoData)
  (a : Registrant) : list string :=
  if truthy (or_ (unassigned_group_reg a) (valid_placeholder a))
  then ["first_name"; "last_name"; "legal_name"; "email"; "birthdate"; "age_group";
        "ec_name"; "ec_phone"; "address1"; "city"; "region"; "region_us";
        "region_canada"; "zip_code"; "country"; "onsite_contact"]
  else
    let optional_list := super_optional in
    let optional_list :=
      if same_legal_name self then optional_list ++ ["legal_name"] else optional_list in
    let optional_list :=
      if copy_email self then optional_list ++ ["email"] else optional_list in
    let optional_list :=
      if copy_phone self || negb (is_dealer a)
      then optional_list ++ ["cellphone"] else optional_list in
    let optional_list :=
      if copy_address self
      then optional_list ++ ["address1"; "city"; "region"; "region_us"; "region_canada";
                             "zip_code"; "country"]
      else optional_list in
    let optional_list :=
      if no_onsite_contact self then optional_list ++ ["onsite_contact"]
      else optional_list in
    optional_list.

End PersonalInfo.

(** What a field validator does: it passes, or raises [ValidationError]. *)
Inductive validation : Type :=
| Passed
| ValidationError (message : string).

Section Validators.

(** [uber.model_checks.invalid_phone_number] *)
Variable invalid_phone_number : option string -> bool.

(** [c.COLLECT_FULL_ADDRESS] *)
Variable COLLECT_FULL_ADDRESS : bool.

(** [PersonalInfo.validate_cellphone]; [data] is [field.data], [ec_phone]
    is [form.ec_phone.data]. *)
Definition validate_cellphone (ec_phone : option string) (data : option string)
  : validation :=
  if truthy (text data) && invalid_phone_number data
  then ValidationError
         "Your phone number was not a valid 10-digit US phone number. Please include a country code (e.g. +44) for international numbers."
  else if truthy (text data) && bool_decide (data = ec_phone)
  then ValidationError
         "Your phone number cannot be the same as your emergency contact number."
  else Passed.

(** [PersonalInfo.validate_ec_phone] *)
Definition validate_ec_phone (self : PersonalInfoData) (data : option string)
  : validation :=
  if negb (international self) && invalid_phone_number data
  then if COLLECT_FULL_ADDRESS
       then ValidationError
              "Please enter a 10-digit US phone number or include a country code (e.g. +44) for your emergency contact number."
       else ValidationError "Please enter a 10-digit emergency contact number."
  else Passed.

End Validators.

Module Consents.

Section Label.

(** [c.ORGANIZATION_NAME] and the three feature switches. *)
Variable ORGANIZATION_NAME : string.
Variable HOTELS_ENABLED DONATIONS_ENABLED ACCESSIBILITY_SERVICES_ENABLED : bool.

Definition base_label : string :=
  ("<strong>Yes</strong>, I understand and agree that " ++ ORGANIZATION_NAME
   ++ " will store the personal information I provided above for the limited purposes of contacting me about my registration")%string.

Definition pii_consent_label : string :=
  let label := base_label in
  let label :=
    if HOTELS_ENABLED then (label ++ ", hotel accommodations")%string else label in
  let label := if DONATIONS_ENABLED then (label ++ ", donations")%string else label in
  let label :=
    if ACCESSIBILITY_SERVICES_ENABLED
    then (label ++ ", accessibility needs")%string else label in
  let label := if negb (String.eqb label base_label) then (label ++ ",")%string else label in
  (label ++ " or volunteer opportunities selected at sign-up.")%string.

End Label.

End Consents.

End AttendeeForms.

(** ** The migration's reflection listener *)

Module Reflection.
Import Py.

Section Dialect.

(** Whether the migration context's dialect is SQLite. *)
Variable is_sqlite : bool.

Definition utcnow_server_default : string :=
  if is_sqlite then "(datetime('now', 'utc'))" else "timezone('utc', current_timestamp)".

(** [sqlite_column_reflect_listener(inspector, table, column_info)]: the
    dict [column_info] as the listener leaves it. *)
Definition sqlite_column_reflect_listener (column_info : gmap string value)
  : result (gmap string value) :=
  match column_info !! "default" with
  | None => inl (KeyError "default")
  | Some (VStr default) =>
      if String.eqb default "datetime('now', 'utc')"
      then inr (<["default" := VStr utcnow_server_default]> column_info)
      else inr column_info
  | Some _ => inr column_info
  end.

End Dialect.

End Reflection.

(** ** mff_rams_plugin/models.py: the dealer group *)

Module Dealers.
Import Py.

(** The configuration values the group methods read, besides
    [Plugin.Config].  [TABLE_PRICES] is given by what subscripting it
    with a number of tables returns (or raises). *)
Record Config : Type := {
  base : Plugin.Config;
  GUEST_BADGE : Z;
  UNAPPROVED : Z;
  APPROVED : Z;
  TABLE_PRICES : Z -> result Z;
  TABLE_OPTS : list (Z * string)
}.

(** A group with the further attributes these methods read; [leader] is the
    badge type of the group's leader, when it has one. *)
Record Group : Type := {
  row : Plugin.Group;
  table_fee : Z;
  leader : option Z;
  status : Z
}.

Definition set_status (self : Group) (v : Z) : Group :=
  {| row := row self; table_fee := table_fee self; leader := leader self;
     status := v |}.

(** [int(d)] on a decimal number: rounding towards zero. *)
Definition int_of_decimal (d : Q) : Z := Z.quot (Qnum d) (Z.pos (Qden d)).

(** The truth value of a decimal number: it is not zero. *)
Definition truthy_decimal (d : Q) : bool := negb (Qnum d =? 0).

(** [l[i]] on a list: a negative index counts from the end. *)
Definition list_getitem {A : Type} (l : list A) (i : Z) : result A :=
  let i := if i <? 0 then i + Z.of_nat (length l) else i in
  if i <? 0 then inl IndexError
  else match nth_error l (Z.to_nat i) with
       | Some x => inr x
       | None => inl IndexError
       end.

Section WithConfig.
Variable c : Config.

Definition guest_groups_approved (self : Group) : Group :=
  if match leader self with
     | Some badge_type => (badge_type =? GUEST_BADGE c) && (status self =? UNAPPROVED c)
     | None => false
     end
  then set_status self (APPROVED c)
  else self.

Definition table_cost (self : Group) : result Z :=
  if truthy (VInt (table_fee self)) then inr (table_fee self)
  else TABLE_PRICES c (int_of_decimal (Plugin.tables (row self))).

Definition tables_repr (self : Group) : result string :=
  if truthy_decimal (Plugin.tables (row self))
  then match list_getitem (TABLE_OPTS c) (int_of_decimal (Plugin.tables (row self)) - 1) with
       | inr opt => inr (snd opt)
       | inl e => inl e
       end
  else inr "No Table".

End WithConfig.

End Dealers.

(** ** mff_rams_plugin/models.py: what a badge costs *)

Module BadgeCost.
Import Py.

(** The configuration values the cost reads, besides [Plugin.Config]; the
    three price functions are methods of the configuration. *)
Record Config : Type := {
  base : Plugin.Config;
  SPONSOR_BADGE : Z;
  SHINY_BADGE : Z;
  ONE_DAY_BADGE : Z;
  NOT_ATTENDING : Z;
  BADGE_TYPE_PRICES : gmap Z Z;
  get_attendee_price : option Z -> Z;
  get_oneday_price : option Z -> Z;
  get_presold_oneday_price : Z -> Z
}.

(** An attendee with the further attributes the cost and the presave
    adjustments read and write. *)
Record Attendee : Type := {
  row : Plugin.Attendee;
  registered : option Z;
  registered_local : Z;
  is_presold_oneday : bool;
  badge_status : Z;
  comped_reason : string
}.

(** [d[k]] on a dict with integer keys. *)
Definition getitem (d : gmap Z Z) (k : Z) : result Z :=
  match d !! k with
  | Some v => inr v
  | None => inl (KeyError (DecimalString.NilZero.string_of_int (Z.to_int k)))
  end.

Notation "'let?' x := r 'in' k" := (Plugin.bind r (fun x => k))
  (at level 10, x name, r at level 100, k at level 200).

Section WithConfig.
Variable c : Config.

Definition not_attending_need_not_pay (self : Attendee) : Attendee :=
  if badge_status self =? NOT_ATTENDING c
  then {| row := Plugin.set_paid (row self) (Plugin.NEED_NOT_PAY (base c));
          registered := registered self; registered_local := registered_local self;
          is_presold_oneday := is_presold_oneday self;
          badge_status := badge_status self;
          comped_reason := "Automated: Not Attending badge status." |}
  else self.

Definition paid_for_a_shirt (self : Attendee) : bool :=
  contains (Plugin.badge_type (row self)) [SPONSOR_BADGE c; SHINY_BADGE c].

Definition badge_cost (self : Attendee) : result Z :=
  let badge_type := Plugin.badge_type (row self) in
  let paid := Plugin.paid (row self) in
  let registered :=
    if truthy (datetime (registered self)) then Some (registered_local self) else None in
  if (paid =? Plugin.NEED_NOT_PAY (base c))
     && negb (contains badge_type [SPONSOR_BADGE c; SHINY_BADGE c])
  then inr 0
  else if paid =? Plugin.NEED_NOT_PAY (base c)
  then let? price := getitem (BADGE_TYPE_PRICES c) badge_type in
       inr (price - get_attendee_price c registered)
  else match Plugin.overridden_price (row self) with
  | Some price => inr price
  | None =>
  if badge_type =? ONE_DAY_BADGE c then inr (get_oneday_price c registered)
  else if is_presold_oneday self
  then let? age_discount := Plugin.age_discount (base c) (row self) in
       inr (Z.max 0 (get_presold_oneday_price c badge_type + age_discount))
  else if bool_decide (is_Some (BADGE_TYPE_PRICES c !! badge_type))
  then let? price := getitem (BADGE_TYPE_PRICES c) badge_type in
       inr price
  else let? age_discount := Plugin.age_discount (base c) (row self) in
       if negb (age_discount =? 0)
       then let? age_discount := Plugin.age_discount (base c) (row self) in
            inr (Z.max 0 (get_attendee_price c registered + age_discount))
       else inr (get_attendee_price c registered)
  end.

End WithConfig.

End BadgeCost.

(** ** The order of [sorted] *)

Module SortOrder.

Section Order.
Context {A : Type} (key : A -> Z) (reverse : bool).

(** The test [Py.sorted] inserts by. *)
Definition earlier (y x : A) : bool := if reverse then key x <? key y else key y <? key x.

(** The order asked for: ascending, or descending under [reverse]. *)
Definition in_order (x y : A) : Prop :=
  if reverse then key y <= key x else key x <= key y.

End Order.

End SortOrder.

(** * Sample data

    Concrete receipts, transactions, forms, schemas and configurations on
    which the properties below are exercised. *)

Module Examples.

Module Receipts.
Import Py Commerce.

(** A receipt with one item of 1000 added at instant 10 and one Stripe
    payment of 2500, charged, added at instant 20 ([c.STRIPE] is 1). *)
Definition overpaid : ModelReceipt :=
  {| invoice_num := 0; owner_id := "a1"; owner_model := Some "Attendee"; closed := None;
     receipt_items :=
       [ {| item_amount := 1000; item_count := 1; item_added := 10; item_closed := None;
            item_who := Some "admin"; item_desc := Some "Badge" |} ];
     receipt_txns :=
       [ {| intent_id := Some "pi_1"; charge_id := Some "ch_1"; refund_id := Some "";
            method := 1; amount := 2500; refunded := None; added := 20;
            cancelled := None; who := Some "admin"; desc := Some "Payment" |} ] |}.

(** A Stripe payment of 2500 that is still pending, and the same payment
    once charged. *)
Definition pending_payment : ReceiptTransaction :=
  {| intent_id := Some "pi_1"; charge_id := Some ""; refund_id := Some "";
     method := 1; amount := 2500; refunded := None; added := 20;
     cancelled := None; who := Some "admin"; desc := Some "Payment" |}.

Definition charged_payment : ReceiptTransaction :=
  {| intent_id := Some "pi_1"; charge_id := Some "ch_1"; refund_id := Some "";
     method := 1; amount := 2500; refunded := None; added := 20;
     cancelled := None; who := Some "admin"; desc := Some "Payment" |}.

Definition cash_payment : ReceiptTransaction :=
  {| intent_id := Some ""; charge_id := Some ""; refund_id := Some "";
     method := 2; amount := 2500; refunded := None; added := 20;
     cancelled := None; who := Some "admin"; desc := Some "Payment" |}.

(** A processor that lists two refunds, of 300 and 200, for every intent. *)
Definition two_refunds (intent : option string) : result (list Refund) :=
  inr [ {| refund_amount := 300 |}; {| refund_amount := 200 |} ].

Definition no_intent (intent : option string) : result PaymentIntent :=
  inl (StripeError "No such payment_intent").

Definition mark_paid_stub (intent : option string) (charge : string) : result unit :=
  inr tt.

(** A receipt with a badge and two shirts, a charged payment, a refund of
    part of it, and two pending charges added at the same instant. *)
Definition first_pending : ReceiptTransaction :=
  {| intent_id := Some "pi_2"; charge_id := Some ""; refund_id := Some "";
     method := 1; amount := 4000; refunded := None; added := 40;
     cancelled := None; who := Some "non-admin"; desc := Some "Shirts" |}.

Definition second_pending : ReceiptTransaction :=
  {| intent_id := Some "pi_3"; charge_id := Some ""; refund_id := Some "";
     method := 1; amount := 4000; refunded := None; added := 40;
     cancelled := None; who := Some "non-admin"; desc := Some "Shirts again" |}.

Definition busy : ModelReceipt :=
  {| invoice_num := 0; owner_id := "a2"; owner_model := Some "Attendee"; closed := None;
     receipt_items :=
       [ {| item_amount := 6000; item_count := 1; item_added := 10; item_closed := None;
            item_who := Some "non-admin"; item_desc := Some "Badge" |};
         {| item_amount := 2000; item_count := 2; item_added := 30; item_closed := None;
            item_who := Some "non-admin"; item_desc := Some "Shirt" |} ];
     receipt_txns :=
       [ {| intent_id := Some "pi_1"; charge_id := Some "ch_1"; refund_id := Some "";
            method := 1; amount := 6000; refunded := Some 1000; added := 20;
            cancelled := None; who := Some "non-admin"; desc := Some "Badge" |};
         {| intent_id := Some "pi_1"; charge_id := Some "ch_1"; refund_id := Some "re_1";
            method := 1; amount := -1000; refunded := None; added := 25;
            cancelled := None; who := Some "admin"; desc := Some "Refund" |};
         {| intent_id := Some "pi_0"; charge_id := Some ""; refund_id := Some "";
            method := 1; amount := 4000; refunded := None; added := 35;
            cancelled := Some 36; who := Some "non-admin"; desc := Some "Shirts" |};
         first_pending;
         second_pending ] |}.

End Receipts.

Module Attendees.
Import Py Forms.

Definition config : Config :=
  {| PENDING_STATUS := 1; REFUNDED_STATUS := 2; DEFERRED_STATUS := 3;
     STAFF_BADGE := 10; CONTRACTOR_BADGE := 11; BADGE_TYPE_PRICES := ∅ |}.

Definition field (l : string) : Field := {| label := l; field_data := VNone |}.

(** [BadgeExtras] and [OtherInfo] with the fields their classes declare, and
    a [PersonalInfo] cut down to its name fields. *)
Definition badge_extras : MagForm :=
  {| _fields := [ ("badge_type", field "Badge Type");
                  ("upgrade_badge_type", field "Badge Type");
                  ("amount_extra", field "Pre-order Merch");
                  ("extra_donation", field "Extra Donation");
                  ("shirt", field "Shirt Size");
                  ("badge_printed_name", field "Name Printed on Badge") ] |}.

Definition other_info : MagForm :=
  {| _fields := [ ("placeholder", field "");
                  ("staffing", field "I am interested in volunteering!");
                  ("requested_dept_ids", field "Where do you want to help?");
                  ("requested_accessibility_services", field "");
                  ("interests", field "What interests you?") ] |}.

Definition personal_info : MagForm :=
  {| _fields := [ ("first_name", field "First Name");
                  ("last_name", field "Last Name");
                  ("legal_name", field "Name as appears on Legal Photo ID") ] |}.

Definition refunded_attendee : Attendee :=
  {| is_new := false; is_valid := true; badge_status := 2; badge_type := 20;
     placeholder := false; active_receipt := None; shifts := [] |}.

Definition new_attendee : Attendee :=
  {| is_new := true; is_valid := true; badge_status := 4; badge_type := 20;
     placeholder := false; active_receipt := None; shifts := [] |}.

End Attendees.

Module Schemas.
Import Migration.

(** The columns of a table that are named neither [start_time] nor
    [end_time]: what is left of it once those two are dropped. *)
Definition other_columns (cols : list Column) : list Column :=
  List.filter (fun col => negb (String.eqb (col_name col) "start_time")
                          && negb (String.eqb (col_name col) "end_time")) cols.

(** A schema with an [access_group] table and an [attendee] table. *)
Definition before : gmap string (list Column) :=
  <["access_group" := [ {| col_name := "id"; col_type := UUID; nullable := false |};
                        {| col_name := "name"; col_type := UnicodeText; nullable := false |} ]]>
    (<["attendee" := [ {| col_name := "id"; col_type := UUID; nullable := false |} ]]> ∅).

Definition after : gmap string (list Column) :=
  <["access_group" := [ {| col_name := "id"; col_type := UUID; nullable := false |};
                        {| col_name := "name"; col_type := UnicodeText; nullable := false |};
                        start_time; end_time ]]> before.

End Schemas.

Module Convention.
Import Py Plugin.

(** A configuration at the con, with no dealer limit configured. *)
Definition config : Config :=
  {| STAFF_BADGE := 2; ATTENDEE_BADGE := 1; FRIDAY := 21; SATURDAY := 22; SUNDAY := 23;
     STAFF_RIBBON := 5; VOLUNTEER_RIBBON := 6;
     NOT_PAID := 1; PAID_BY_GROUP := 3; NEED_NOT_PAY := 4;
     UNDER_13 := 13; AT_THE_CON := true; MAX_DEALERS := None |}.

(** The same with a dealer limit of 20. *)
Definition config_limited : Config :=
  {| STAFF_BADGE := 2; ATTENDEE_BADGE := 1; FRIDAY := 21; SATURDAY := 22; SUNDAY := 23;
     STAFF_RIBBON := 5; VOLUNTEER_RIBBON := 6;
     NOT_PAID := 1; PAID_BY_GROUP := 3; NEED_NOT_PAY := 4;
     UNDER_13 := 13; AT_THE_CON := true; MAX_DEALERS := Some 20 |}.

(** A group with one and a half tables, and one with six. *)
Definition small_group : Group := {| tables := 3 # 2 |}.
Definition large_group : Group := {| tables := 6 # 1 |}.

(** An under-13 attendee with a guest badge (type 3) and no configured
    age-group discount. *)
Definition child_guest : Attendee :=
  {| badge_type := 3; ribbon := ""; staffing := false; overridden_price := None;
     paid := 1; age_group_conf := <["val" := 13]> (<["discount" := 0]> ∅) |}.

(** An attendee with an attendee badge and the staff ribbon. *)
Definition staff_ribbon_attendee : Attendee :=
  {| badge_type := 1; ribbon := "5"; staffing := false; overridden_price := None;
     paid := 1; age_group_conf := <["discount" := 0]> ∅ |}.

(** An attendee with an attendee badge, no ribbon, not staffing. *)
Definition plain_attendee : Attendee :=
  {| badge_type := 1; ribbon := ""; staffing := false; overridden_price := None;
     paid := 1; age_group_conf := <["discount" := 0]> ∅ |}.

(** The ribbons of the two samples: the stored value "5" holds ribbon 5. *)
Definition sample_ribbon_ints (stored : string) : list Z :=
  if String.eqb stored "" then [] else [5].

(** The helpers as the module sees them, and as the application has them
    (on the samples, where the volunteer ribbon 6 is absent). *)
Definition unbound_add_opt (opts : list Z) (other : Z) : result string :=
  inl (NameError "add_opt").
Definition unbound_remove_opt (opts : list Z) (other : Z) : result string :=
  inl (NameError "remove_opt").
Definition sample_add_opt (opts : list Z) (other : Z) : result string := inr "5,6".
Definition sample_remove_opt (opts : list Z) (other : Z) : result string := inr "5".

End Convention.

End Examples.

(** ** More sample data *)

Module Samples.

Module Receipts.
Import Py Commerce.

(** Two shirts added at instant 30. *)
Definition late_shirts : ReceiptItem :=
  {| item_amount := 2000; item_count := 2; item_added := 30; item_closed := None;
     item_who := Some "non-admin"; item_desc := Some "Shirt" |}.

(** A processor that knows an intent with the charges [ch_1] and [ch_2],
    one whose intent has an empty list of charges, and one that fails. *)
Definition two_charges (intent : option string) : result PaymentIntent :=
  inr {| charges := Some {| data := ["ch_1"; "ch_2"] |} |}.


Definition unreachable (intent : option string) : result PaymentIntent :=
  inl (StripeError "Connection error").

Definition marked (intent : option string) (charge : string) : result string :=
  inr charge.

End Receipts.

Module People.
Import Py Forms AttendeeForms.

(** A [PersonalInfo] form with name and contact fields. *)
Definition contact_form : MagForm :=
  {| _fields := [ ("first_name", Examples.Attendees.field "First Name");
                  ("last_name", Examples.Attendees.field "Last Name");
                  ("email", Examples.Attendees.field "Email Address");
                  ("cellphone", Examples.Attendees.field "Phone Number") ] |}.

(** An attendee with a completed badge: valid, not new, not a placeholder. *)
Definition completed_attendee : Attendee :=
  {| is_new := false; is_valid := true; badge_status := 4; badge_type := 20;
     placeholder := false; active_receipt := Some Examples.Receipts.overpaid;
     shifts := [] |}.

(** A named attendee who is not a dealer, and a badge of a group that
    nobody has claimed yet. *)
Definition visitor : Registrant :=
  {| attendee := completed_attendee; group_id := None;
     first_name := Some "Ada"; last_name := Some "Lovelace";
     is_dealer := false |}.

Definition unclaimed_badge : Registrant :=
  {| attendee := completed_attendee; group_id := Some "g1";
     first_name := Some ""; last_name := Some "";
     is_dealer := false |}.

Definition nothing_copied : PersonalInfoData :=
  {| same_legal_name := false; copy_email := false; copy_phone := false;
     copy_address := false; no_onsite_contact := false; international := false |}.

Definition everything_copied : PersonalInfoData :=
  {| same_legal_name := true; copy_email := true; copy_phone := true;
     copy_address := true; no_onsite_contact := true; international := true |}.

(** A phone check that accepts exactly the numbers of ten characters. *)
Definition ten_characters (data : option string) : bool :=
  match data with
  | Some number => negb (Nat.eqb (String.length number) 10)
  | None => true
  end.

End People.

Module Columns.
Import Py.

(** What SQLite reflects for a timestamp column with the UTC default. *)
Definition reflected : gmap string value :=
  <["name" := VStr "added"]>
    (<["nullable" := VBool false]>
       (<["default" := VStr "datetime('now', 'utc')"]> ∅)).

End Columns.

Module Floor.
Import Py.

(** Table prices by the level, with no price for more than four tables. *)
Definition table_prices (level : Z) : result Z :=
  if (0 <=? level) && (level <=? 4) then inr (level * 10000)
  else inl (KeyError "level").

Definition dealers : Dealers.Config :=
  {| Dealers.base := Examples.Convention.config;
     Dealers.GUEST_BADGE := 3; Dealers.UNAPPROVED := 1; Dealers.APPROVED := 2;
     Dealers.TABLE_PRICES := table_prices;
     Dealers.TABLE_OPTS := [(1, "Single Table"); (2, "Double Table"); (3, "Island")] |}.

(** A guest-led group waiting for approval, with one and a half tables,
    and one with half a table. *)
Definition guest_group : Dealers.Group :=
  {| Dealers.row := Examples.Convention.small_group; Dealers.table_fee := 0;
     Dealers.leader := Some 3; Dealers.status := 1 |}.

Definition half_table : Dealers.Group :=
  {| Dealers.row := {| Plugin.tables := 1 # 2 |}; Dealers.table_fee := 0;
     Dealers.leader := None; Dealers.status := 2 |}.

(** Prices: 6000 for a badge, 3000 for a day, 15000 for a sponsor badge
    (type 4). *)
Definition prices : BadgeCost.Config :=
  {| BadgeCost.base := Examples.Convention.config;
     BadgeCost.SPONSOR_BADGE := 4; BadgeCost.SHINY_BADGE := 5;
     BadgeCost.ONE_DAY_BADGE := 6; BadgeCost.NOT_ATTENDING := 9;
     BadgeCost.BADGE_TYPE_PRICES := <[4 := 15000]> ∅;
     BadgeCost.get_attendee_price := fun registered => 6000;
     BadgeCost.get_oneday_price := fun registered => 3000;
     BadgeCost.get_presold_oneday_price := fun badge_type => 3000 |}.

(** The under-13 guest of the samples at the door, unpaid, and an attendee
    marked as not attending. *)
Definition child_at_the_door : BadgeCost.Attendee :=
  {| BadgeCost.row := Examples.Convention.child_guest; BadgeCost.registered := None;
     BadgeCost.registered_local := 0; BadgeCost.is_presold_oneday := false;
     BadgeCost.badge_status := 1; BadgeCost.comped_reason := "" |}.

Definition stays_at_home : BadgeCost.Attendee :=
  {| BadgeCost.row := Examples.Convention.plain_attendee; BadgeCost.registered := Some 5;
     BadgeCost.registered_local := 5; BadgeCost.is_presold_oneday := false;
     BadgeCost.badge_status := 9; BadgeCost.comped_reason := "" |}.

End Floor.

End Samples.

(** * Properties *)

(** ** Facts about the Python prelude *)

Module PyFacts.
Import Py.

Lemma fold_left_add_sum_over {A : Type} (f : A -> Z) (l : list A) (a : Z) :
  fold_left (fun total x => total + f x) l a = a + sum_over f l.
Proof.
  revert a. induction l as [|x l IH]; intros a; simpl.
  - lia.
  - rewrite IH. lia.
Qed.

Lemma sum_ints_map {A : Type} (f : A -> Z) (l : list A) :
  sum_ints (map f l) = sum_over f l.
Proof.
  unfold sum_ints.
  assert (H : forall a, fold_left Z.add (map f l) a = a + sum_over f l).
  { induction l as [|x l IH]; intros a; simpl; [lia | rewrite IH; lia]. }
  rewrite H. lia.
Qed.

Lemma sum_over_nonpos {A : Type} (f : A -> Z) (l : list A) :
  Forall (fun x => f x <= 0) l -> sum_over f l <= 0.
Proof.
  induction 1 as [|x l Hx _ IH]; simpl; lia.
Qed.

Lemma Forall_filter_holds {A : Type} (p : A -> bool) (l : list A) :
  Forall (fun x => p x = true) (List.filter p l).
Proof.
  apply List.Forall_forall. intros x Hx. apply List.filter_In in Hx. tauto.
Qed.

Section Sorted.
Context {A : Type} (earlier : A -> A -> bool).

Lemma in_insert_sorted (x a : A) (l : list A) :
  In x (insert_sorted earlier a l) <-> x = a \/ In x l.
Proof.
  induction l as [|y l IH]; simpl.
  - intuition congruence.
  - destruct (earlier y a); simpl; rewrite ?IH; intuition congruence.
Qed.

End Sorted.

Lemma in_sorted {A : Type} (key : A -> Z) (reverse : bool) (x : A) (l : list A) :
  In x (sorted key reverse l) <-> In x l.
Proof.
  unfold sorted. induction l as [|a l IH]; simpl.
  - tauto.
  - rewrite in_insert_sorted, IH. intuition congruence.
Qed.

(** The head of a list sorted with [reverse=True] has the largest key. *)
Lemma first_sorted_reverse {A : Type} (key : A -> Z) (l : list A) (h : A) :
  first (sorted key true l) = inr h ->
  Forall (fun x => key x <= key h) l.
Proof.
  revert h. induction l as [|a l IH]; intros h Hh.
  - constructor.
  - change (sorted key true (a :: l))
      with (insert_sorted (fun y x => key x <? key y) a (sorted key true l)) in Hh.
    destruct (sorted key true l) as [|y s] eqn:Es; simpl in Hh.
    + injection Hh as <-. destruct l as [|b l].
      * constructor; [lia | constructor].
      * exfalso. assert (Hb : In b (sorted key true (b :: l))) by (apply in_sorted; now left).
        rewrite Es in Hb. destruct Hb.
    + specialize (IH y eq_refl).
      destruct (key a <? key y) eqn:Elt; simpl in Hh; injection Hh as <-.
      * apply Z.ltb_lt in Elt. constructor; [lia | exact IH].
      * apply Z.ltb_ge in Elt. constructor; [lia |].
        eapply List.Forall_impl; [| exact IH]. simpl. intros x Hx. lia.
Qed.

Lemma first_sorted_nonempty {A : Type} (key : A -> Z) (reverse : bool) (a : A) (l : list A) :
  exists h, first (sorted key reverse (a :: l)) = inr h.
Proof.
  destruct (sorted key reverse (a :: l)) as [|h s] eqn:Es.
  - exfalso. assert (Ha : In a (sorted key reverse (a :: l))) by (apply in_sorted; now left).
    rewrite Es in Ha. destruct Ha.
  - exists h. reflexivity.
Qed.

End PyFacts.

(** ** The receipt ledger *)

Module Ledger.
Import Py PyFacts Commerce Examples.Receipts.

(** The ledger of the sample receipt: 10000 in items; the payment of 6000
    and the refund of -1000 both count as payments, 1000 is refunded; 6000
    is owed; of the two pending charges added together the first is the
    last incomplete one. *)
Example busy_ledger :
  item_total busy = 10000
  /\ payment_total 1 busy = 5000
  /\ refund_total busy = 1000
  /\ current_amount_owed 1 busy = 6000
  /\ pending_txns busy = [first_pending; second_pending]
  /\ pending_total busy = 8000
  /\ last_incomplete_txn busy = inr (Some first_pending).
Proof. repeat split. Qed.

Section Balance.
Variable STRIPE : Z.

(** C1: the running balance of a receipt is plain summation.  [item_total]
    is the sum of amount times count over the receipt items; [refund_total]
    is -1 times the sum of the negative transaction amounts and is not
    negative; [txn_total] is [payment_total - refund_total];
    [current_receipt_amount] is [item_total - txn_total]; and
    [current_amount_owed] is [max 0 current_receipt_amount], never negative. *)
Theorem running_balance (r : ModelReceipt) :
  item_total r = sum_over (fun item => item_amount item * item_count item) (receipt_items r)
  /\ refund_total r
     = -1 * sum_over amount (List.filter (fun txn => amount txn <? 0) (receipt_txns r))
  /\ 0 <= refund_total r
  /\ txn_total STRIPE r = payment_total STRIPE r - refund_total r
  /\ current_receipt_amount STRIPE r = item_total r - txn_total STRIPE r
  /\ current_amount_owed STRIPE r = Z.max 0 (current_receipt_amount STRIPE r)
  /\ 0 <= current_amount_owed STRIPE r.
Proof.
  assert (Hrefund : refund_total r
     = -1 * sum_over amount (List.filter (fun txn => amount txn <? 0) (receipt_txns r))).
  { unfold refund_total. rewrite sum_ints_map. lia. }
  repeat split.
  - unfold item_total. apply sum_ints_map.
  - exact Hrefund.
  - rewrite Hrefund.
    pose proof (sum_over_nonpos amount
                  (List.filter (fun txn => amount txn <? 0) (receipt_txns r))) as Hle.
    assert (Hneg : Forall (fun txn => amount txn <= 0)
                     (List.filter (fun txn => amount txn <? 0) (receipt_txns r))).
    { eapply List.Forall_impl;
        [| apply (Forall_filter_holds (fun txn => amount txn <? 0))].
      simpl. intros txn Htxn. apply Z.ltb_lt in Htxn. lia. }
    specialize (Hle Hneg). lia.
  - unfold current_amount_owed. lia.
Qed.

End Balance.

(** C3: a transaction's [receipt_share] is the smaller of its amount and the
    sum of [total_amount] (amount times count) over the items of its receipt
    added at or before the transaction was; so it never exceeds the amount. *)
Theorem receipt_share_capped (r : ModelReceipt) (t : ReceiptTransaction) :
  receipt_share r t
  = Z.min (amount t)
          (sum_over (fun item => item_amount item * item_count item)
                    (List.filter (fun item => item_added item <=? added t)
                                 (receipt_items r)))
  /\ receipt_share r t <= amount t.
Proof.
  split.
  - unfold receipt_share. rewrite sum_ints_map. reflexivity.
  - unfold receipt_share. apply Z.le_min_l.
Qed.

Lemma truthy_text_true (s : option string) :
  truthy (text s) = true <-> exists v, s = Some v /\ v <> "".
Proof.
  destruct s as [v|]; simpl.
  - rewrite negb_true_iff, String.eqb_neq. split.
    + intros Hv. exists v. split; [reflexivity | exact Hv].
    + intros (v' & Heq & Hv). injection Heq as ->. exact Hv.
  - split; [discriminate | intros (v & Heq & _); discriminate].
Qed.

Lemma truthy_text_false (s : option string) :
  truthy (text s) = false <-> s = None \/ s = Some "".
Proof.
  destruct s as [v|]; simpl.
  - rewrite negb_false_iff, String.eqb_eq. split.
    + intros ->. now right.
    + intros [H|H]; [discriminate | now injection H].
  - split; [now left | reflexivity].
Qed.

Lemma is_pending_charge_iff (t : ReceiptTransaction) :
  truthy (is_pending_charge t) = true <->
  (exists v, intent_id t = Some v /\ v <> "")
  /\ (charge_id t = None \/ charge_id t = Some "")
  /\ cancelled t = None.
Proof.
  rewrite <- truthy_text_true, <- truthy_text_false.
  unfold is_pending_charge, and_, not_.
  destruct (truthy (text (intent_id t))) eqn:Ei; simpl.
  - destruct (truthy (text (charge_id t))) eqn:Ec; simpl.
    + intuition discriminate.
    + destruct (cancelled t); simpl; intuition discriminate.
  - split; [| intros [H _]; discriminate].
    intros H. rewrite Ei in H. congruence.
Qed.

(** C4: a transaction is a pending charge exactly when it has a non-empty
    intent id, no charge id and is not cancelled; [pending_txns] holds
    exactly the pending transactions of the receipt, [pending_total] is the
    sum of their amounts, and [last_incomplete_txn] is a pending transaction
    whose [added] is the latest, or [None] when none is pending. *)
Theorem pending_charges (r : ModelReceipt) :
  (forall t, truthy (is_pending_charge t) = true <->
             (exists v, intent_id t = Some v /\ v <> "")
             /\ (charge_id t = None \/ charge_id t = Some "")
             /\ cancelled t = None)
  /\ (forall t, In t (pending_txns r) <->
                In t (receipt_txns r) /\ truthy (is_pending_charge t) = true)
  /\ pending_total r = sum_over amount (pending_txns r)
  /\ match last_incomplete_txn r with
     | inr (Some t) =>
         In t (pending_txns r)
         /\ Forall (fun t' => added t' <= added t) (pending_txns r)
     | inr None => pending_txns r = []
     | inl _ => False
     end.
Proof.
  split; [exact is_pending_charge_iff |].
  split; [intros t; unfold pending_txns; apply List.filter_In |].
  split; [unfold pending_total, pending_txns; apply sum_ints_map |].
  unfold last_incomplete_txn.
  destruct (pending_txns r) as [|t0 ts] eqn:Ep; [reflexivity |].
  destruct (first_sorted_nonempty added true t0 ts) as [h Hh].
  rewrite Hh. split.
  - apply (in_sorted added true). destruct (sorted added true (t0 :: ts)); simpl in Hh.
    + discriminate.
    + injection Hh as ->. now left.
  - apply first_sorted_reverse. exact Hh.
Qed.

End Ledger.

(** ** The two sides of the hybrid property [payment_total] *)

Module Hybrid.
Import Py PyFacts Commerce Examples.Receipts.

(** C2: on this receipt the in-Python [payment_total] counts the payment's
    [receipt_share], 1000, while the SQL expression sums its raw amount,
    2500: the two sides of the hybrid property differ. *)
Theorem payment_total_sides_differ :
  payment_total 1 overpaid = 1000
  /\ payment_total_expression 1 overpaid = Some 2500.
Proof. split; reflexivity. Qed.

(** The WHERE clause of the expression and the condition of the
    comprehension select the same rows, unless a charge id is the empty
    string. *)
Lemma where_clause_counts (STRIPE : Z) (txn : ReceiptTransaction) :
  charge_id txn <> Some "" ->
  match cancelled txn with None => true | Some _ => false end
  && ((match charge_id txn with Some _ => true | None => false end)
      || (negb (method txn =? STRIPE) && (amount txn >? 0)))
  = truthy (counts_as_payment STRIPE txn).
Proof.
  intros Hc. unfold counts_as_payment, and_, or_, not_.
  destruct (cancelled txn); simpl; [reflexivity |].
  destruct (charge_id txn) as [v|]; simpl.
  - destruct (String.eqb v "") eqn:Ev; simpl; [| now rewrite Ev].
    apply String.eqb_eq in Ev. congruence.
  - destruct (method txn =? STRIPE); reflexivity.
Qed.

(** Where every counted payment is covered by the items added before it and
    a charge id is never the empty string, the two sides select the same
    rows and sum the same numbers. *)
Lemma payment_total_sides_agree (STRIPE : Z) (r : ModelReceipt) :
  Forall (fun txn => charge_id txn <> Some "") (receipt_txns r) ->
  Forall (fun txn => truthy (counts_as_payment STRIPE txn) = true ->
                     receipt_share r txn = amount txn) (receipt_txns r) ->
  payment_total_expression STRIPE r
  = match List.filter (fun txn => truthy (counts_as_payment STRIPE txn)) (receipt_txns r) with
    | [] => None
    | _ :: _ => Some (payment_total STRIPE r)
    end.
Proof.
  intros Hcharge Hshare.
  rewrite List.Forall_forall in Hcharge, Hshare.
  unfold payment_total_expression, payment_total, sum_ints.
  rewrite (List.filter_ext_in _ (fun txn => truthy (counts_as_payment STRIPE txn)))
    by (intros txn Hin; apply where_clause_counts, Hcharge, Hin).
  rewrite (List.map_ext_in amount (receipt_share r)).
  - destruct (List.filter _ (receipt_txns r)); reflexivity.
  - intros txn Hin. apply List.filter_In in Hin as [Hin Ht].
    symmetry. apply Hshare; assumption.
Qed.

End Hybrid.

(** ** Synchronising a transaction with the payment processor *)

Module StripeSync.
Import Py PyFacts Commerce Examples.Receipts.

Section Processor.
Variable stripe_Refund_list : option string -> result (list Refund).
Variable stripe_PaymentIntent_retrieve : option string -> result PaymentIntent.
Variable Paid : Type.
Variable Charge_mark_paid_from_intent_id : option string -> string -> result Paid.

(** Without an intent id nothing is asked and nothing changes. *)
Lemma update_amount_refunded_no_intent (t : ReceiptTransaction) (log : list call) :
  truthy (text (intent_id t)) = false ->
  update_amount_refunded stripe_Refund_list t log = (inr t, log).
Proof.
  intros Hi. unfold update_amount_refunded. rewrite Hi. reflexivity.
Qed.

(** With an intent id the refunds are listed once and summed into [refunded]. *)
Lemma update_amount_refunded_intent (t : ReceiptTransaction) (log : list call)
  (refunds : list Refund) :
  truthy (text (intent_id t)) = true ->
  stripe_Refund_list (intent_id t) = inr refunds ->
  update_amount_refunded stripe_Refund_list t log
  = (inr (set_refunded t (Some (sum_over refund_amount refunds))),
     log ++ [Refund_list (intent_id t)]).
Proof.
  intros Hi Hr. unfold update_amount_refunded, bind, perform, ret.
  rewrite Hi, Hr. simpl. rewrite fold_left_add_sum_over. reflexivity.
Qed.

(** C5: without an intent id [update_amount_refunded] leaves the transaction
    as it is; with one it sets [refunded] to the sum of the refund amounts
    the processor lists for that intent, and no other field changes.  With a
    charge id [check_paid_from_stripe] returns [None] without a call to the
    processor and leaves the transaction as it is. *)
Theorem stripe_sync_frame (t : ReceiptTransaction) (log : list call) :
  (truthy (text (intent_id t)) = false ->
   update_amount_refunded stripe_Refund_list t log = (inr t, log))
  /\ (forall refunds,
        truthy (text (intent_id t)) = true ->
        stripe_Refund_list (intent_id t) = inr refunds ->
        exists t',
          update_amount_refunded stripe_Refund_list t log
          = (inr t', log ++ [Refund_list (intent_id t)])
          /\ refunded t' = Some (sum_over refund_amount refunds)
          /\ intent_id t' = intent_id t /\ charge_id t' = charge_id t
          /\ refund_id t' = refund_id t /\ method t' = method t
          /\ amount t' = amount t /\ added t' = added t
          /\ cancelled t' = cancelled t /\ who t' = who t /\ desc t' = desc t)
  /\ (truthy (text (charge_id t)) = true ->
      check_paid_from_stripe stripe_PaymentIntent_retrieve Paid
        Charge_mark_paid_from_intent_id t log
      = (inr (t, None), log)).
Proof.
  split; [apply update_amount_refunded_no_intent |].
  split.
  - intros refunds Hi Hr.
    exists (set_refunded t (Some (sum_over refund_amount refunds))).
    split; [now apply update_amount_refunded_intent |].
    simpl. repeat split.
  - intros Hc. unfold check_paid_from_stripe. rewrite Hc. reflexivity.
Qed.

End Processor.

Lemma stripe_sync_frame_witness :
  update_amount_refunded two_refunds cash_payment [] = (inr cash_payment, [])
  /\ (exists t',
        update_amount_refunded two_refunds pending_payment []
        = (inr t', [Refund_list (Some "pi_1")])
        /\ refunded t' = Some 500 /\ amount t' = 2500)
  /\ check_paid_from_stripe no_intent unit mark_paid_stub charged_payment []
     = (inr (charged_payment, None), []).
Proof.
  split; [| split].
  - apply (stripe_sync_frame two_refunds no_intent unit mark_paid_stub cash_payment []).
    reflexivity.
  - destruct (stripe_sync_frame two_refunds no_intent unit mark_paid_stub pending_payment [])
      as (_ & Hset & _).
    destruct (Hset _ eq_refl eq_refl) as (t' & Hrun & Hrefunded & _ & _ & _ & _ & Hamount & _).
    exists t'. repeat split; assumption.
  - apply (stripe_sync_frame two_refunds no_intent unit mark_paid_stub charged_payment []).
    reflexivity.
Defined.

End StripeSync.

(** ** Fields locked for non-admins *)

Module LockedFields.
Import Py Forms Examples.Attendees.

Section WithConfig.
Variable c : Config.

(** C6: for an attendee that is not new (and, for [PersonalInfo], not in
    pending status) and that is not valid or has the refunded status, each
    of the three forms locks all its field keys; for a new attendee
    [PersonalInfo] and [BadgeExtras] lock nothing. *)
Theorem invalid_locks_every_field (personal_info badge_extras other_info : MagForm)
  (attendee : Attendee) :
  (is_new attendee = false ->
   badge_status attendee <> PENDING_STATUS c ->
   is_valid attendee = false \/ badge_status attendee = REFUNDED_STATUS c ->
   PersonalInfo.get_non_admin_locked_fields c personal_info attendee = keys personal_info)
  /\ (is_new attendee = false ->
      is_valid attendee = false \/ badge_status attendee = REFUNDED_STATUS c ->
      BadgeExtras.get_non_admin_locked_fields c badge_extras attendee = keys badge_extras
      /\ OtherInfo.get_non_admin_locked_fields c other_info attendee = keys other_info)
  /\ (is_new attendee = true ->
      PersonalInfo.get_non_admin_locked_fields c personal_info attendee = []
      /\ BadgeExtras.get_non_admin_locked_fields c badge_extras attendee = []).
Proof.
  assert (Hlocked :
    is_valid attendee = false \/ badge_status attendee = REFUNDED_STATUS c ->
    negb (is_valid attendee) || (badge_status attendee =? REFUNDED_STATUS c) = true).
  { intros [Hv | Hs].
    - rewrite Hv. reflexivity.
    - apply Z.eqb_eq in Hs. rewrite Hs. apply orb_true_r. }
  split; [| split].
  - intros Hnew Hpending Hinvalid.
    unfold PersonalInfo.get_non_admin_locked_fields.
    apply Z.eqb_neq in Hpending.
    rewrite Hnew, Hpending, (Hlocked Hinvalid). reflexivity.
  - intros Hnew Hinvalid. split.
    + unfold BadgeExtras.get_non_admin_locked_fields.
      rewrite Hnew, (Hlocked Hinvalid). reflexivity.
    + unfold OtherInfo.get_non_admin_locked_fields.
      rewrite Hnew, (Hlocked Hinvalid). reflexivity.
  - intros Hnew. split.
    + unfold PersonalInfo.get_non_admin_locked_fields. rewrite Hnew. reflexivity.
    + unfold BadgeExtras.get_non_admin_locked_fields. rewrite Hnew. reflexivity.
Qed.

End WithConfig.

Lemma invalid_locks_every_field_witness :
  PersonalInfo.get_non_admin_locked_fields config personal_info refunded_attendee
  = ["first_name"; "last_name"; "legal_name"]
  /\ BadgeExtras.get_non_admin_locked_fields config badge_extras refunded_attendee
     = ["badge_type"; "upgrade_badge_type"; "amount_extra"; "extra_donation";
        "shirt"; "badge_printed_name"]
  /\ OtherInfo.get_non_admin_locked_fields config other_info refunded_attendee
     = ["placeholder"; "staffing"; "requested_dept_ids";
        "requested_accessibility_services"; "interests"]
  /\ PersonalInfo.get_non_admin_locked_fields config personal_info new_attendee = []
  /\ BadgeExtras.get_non_admin_locked_fields config badge_extras new_attendee = [].
Proof.
  destruct (invalid_locks_every_field config personal_info badge_extras other_info
              refunded_attendee) as (Hp & Hbo & _).
  destruct (invalid_locks_every_field config personal_info badge_extras other_info
              new_attendee) as (_ & _ & Hnew).
  split.
  { apply Hp; [reflexivity | discriminate | right; reflexivity]. }
  destruct Hbo as [Hb Ho]; [reflexivity | right; reflexivity |].
  destruct (Hnew eq_refl) as [Hnp Hnb].
  repeat split; assumption.
Defined.

End LockedFields.

(** ** The access-group migration *)

Module MigrationSpec.
Import Migration Examples.Schemas.

Lemma has_column_app (name : string) (cols cols' : list Column) :
  has_column name (cols ++ cols') = has_column name cols || has_column name cols'.
Proof. unfold has_column. apply existsb_app. Qed.

Lemma filter_absent (name : string) (cols : list Column) :
  has_column name cols = false ->
  List.filter (fun col => negb (String.eqb (col_name col) name)) cols = cols.
Proof.
  induction cols as [|col cols IH]; simpl; [reflexivity |].
  intros H. apply orb_false_iff in H as [Hcol Hcols].
  rewrite Hcol. simpl. now rewrite IH.
Qed.

Lemma add_column_inv (table : string) (column : Column)
  (schema schema' : gmap string (list Column)) :
  add_column table column schema = inr schema' ->
  exists cols, schema !! table = Some cols
               /\ has_column (col_name column) cols = false
               /\ schema' = <[table := cols ++ [column]]> schema.
Proof.
  unfold add_column. destruct (schema !! table) as [cols|]; [| discriminate].
  destruct (has_column (col_name column) cols) eqn:Hc; [discriminate |].
  intros H. injection H as <-. now exists cols.
Qed.

Lemma drop_column_inv (table name : string) (schema schema' : gmap string (list Column)) :
  drop_column table name schema = inr schema' ->
  exists cols, schema !! table = Some cols
               /\ schema' = <[table := List.filter
                                         (fun col => negb (String.eqb (col_name col) name))
                                         cols]> schema.
Proof.
  unfold drop_column. destruct (schema !! table) as [cols|]; [| discriminate].
  destruct (has_column name cols); [| discriminate].
  intros H. injection H as <-. now exists cols.
Qed.

Lemma upgrade_inv (schema schema' : gmap string (list Column)) :
  upgrade schema = inr schema' ->
  exists cols, schema !! "access_group" = Some cols
               /\ has_column "start_time" cols = false
               /\ has_column "end_time" cols = false
               /\ schema' = <["access_group" := cols ++ [start_time; end_time]]> schema.
Proof.
  unfold upgrade, and_then.
  destruct (add_column "access_group" _ schema) as [e|s1] eqn:H1; [discriminate |].
  intros H2.
  apply add_column_inv in H1 as (cols & Hcols & Hstart & ->).
  apply add_column_inv in H2 as (cols1 & Hcols1 & Hend & ->).
  rewrite lookup_insert_eq in Hcols1. injection Hcols1 as <-.
  simpl in Hstart, Hend. rewrite has_column_app in Hend.
  apply orb_false_iff in Hend as [Hend _].
  exists cols. repeat split; try assumption.
  rewrite insert_insert_eq, <- app_assoc. reflexivity.
Qed.

Lemma downgrade_inv (schema schema' : gmap string (list Column)) :
  downgrade schema = inr schema' ->
  exists cols, schema !! "access_group" = Some cols
               /\ schema' = <["access_group" := other_columns cols]> schema.
Proof.
  unfold downgrade, and_then.
  destruct (drop_column "access_group" "start_time" schema) as [e|s1] eqn:H1;
    [discriminate |].
  intros H2.
  apply drop_column_inv in H1 as (cols & Hcols & ->).
  apply drop_column_inv in H2 as (cols1 & Hcols1 & ->).
  rewrite lookup_insert_eq in Hcols1. injection Hcols1 as <-.
  exists cols. split; [assumption |].
  rewrite insert_insert_eq. f_equal.
  unfold other_columns. clear. induction cols as [|col cols IH]; simpl; [reflexivity |].
  destruct (String.eqb (col_name col) "start_time"); simpl; [exact IH |].
  destruct (String.eqb (col_name col) "end_time"); simpl; [exact IH | now rewrite IH].
Qed.

Lemma downgrade_after_upgrade (schema schema' : gmap string (list Column)) :
  upgrade schema = inr schema' -> downgrade schema' = inr schema.
Proof.
  intros Hup. apply upgrade_inv in Hup as (cols & Hcols & Hstart & Hend & ->).
  unfold downgrade, and_then, drop_column.
  rewrite lookup_insert_eq.
  assert (H1 : has_column "start_time" (cols ++ [start_time; end_time]) = true).
  { rewrite has_column_app. apply orb_true_r. }
  rewrite H1, insert_insert_eq, lookup_insert_eq.
  rewrite List.filter_app, (filter_absent _ _ Hstart). simpl.
  assert (H2 : has_column "end_time" (cols ++ [end_time]) = true).
  { rewrite has_column_app. apply orb_true_r. }
  rewrite H2, insert_insert_eq.
  rewrite List.filter_app, (filter_absent _ _ Hend). simpl.
  rewrite app_nil_r. f_equal. apply insert_id. exact Hcols.
Qed.

(** C7: where [upgrade] runs, it appends the two nullable [UTCDateTime]
    columns [start_time] and [end_time] to [access_group] and touches
    nothing else; where [downgrade] runs, it removes the columns of those
    two names from [access_group] and touches nothing else; and [downgrade]
    after [upgrade] gives the schema back. *)
Theorem migration_round_trip :
  (forall schema schema' : gmap string (list Column),
     upgrade schema = inr schema' ->
     exists cols, schema !! "access_group" = Some cols
                  /\ schema' = <["access_group" := cols ++ [start_time; end_time]]> schema)
  /\ (forall schema schema' : gmap string (list Column),
        downgrade schema = inr schema' ->
        exists cols, schema !! "access_group" = Some cols
                     /\ schema' = <["access_group" := other_columns cols]> schema)
  /\ (forall schema schema' : gmap string (list Column),
        upgrade schema = inr schema' -> downgrade schema' = inr schema).
Proof.
  split; [| split].
  - intros schema schema' Hup.
    apply upgrade_inv in Hup as (cols & Hcols & _ & _ & ->). now exists cols.
  - exact downgrade_inv.
  - exact downgrade_after_upgrade.
Qed.

Lemma migration_round_trip_witness :
  upgrade before = inr after /\ downgrade after = inr before.
Proof.
  assert (Hup : upgrade before = inr after).
  { unfold upgrade, and_then, add_column, before.
    rewrite lookup_insert_eq. simpl.
    rewrite lookup_insert_eq. simpl.
    rewrite insert_insert_eq. reflexivity. }
  split; [exact Hup |].
  destruct migration_round_trip as (_ & _ & Hround).
  exact (Hround before after Hup).
Defined.

End MigrationSpec.

(** ** The plugin's group and attendee properties *)

Module PluginSpec.
Import Py Plugin Examples.Convention.

Section WithConfig.
Variable c : Config.

(** C10: with [MAX_DEALERS] unset or zero, [dealer_max_badges] is the smaller
    of 12 and 3 times the ceiling of the table count (the least integer not
    below it), so at most 12; with [MAX_DEALERS] set to a non-zero value it
    is that value, whatever the table count. *)
Theorem dealer_max_badges_bound (g : Group) :
  (MAX_DEALERS c = None \/ MAX_DEALERS c = Some 0 ->
   exists k : Z,
     (inject_Z (k - 1) < tables g)%Q /\ (tables g <= inject_Z k)%Q
     /\ dealer_max_badges c g = Z.min (3 * k) 12
     /\ dealer_max_badges c g <= 12)
  /\ (forall n, MAX_DEALERS c = Some n -> n <> 0 -> dealer_max_badges c g = n).
Proof.
  split.
  - intros Hunset. exists (Qceiling (tables g)).
    split; [apply Qceiling_lt |]. split; [apply Qle_ceiling |].
    assert (Hmin : dealer_max_badges c g = Z.min (Qceiling (tables g) * 3) 12).
    { unfold dealer_max_badges. destruct Hunset as [-> | ->]; reflexivity. }
    rewrite Hmin. split; [f_equal; lia | apply Z.le_min_r].
  - intros n Hn Hnz. unfold dealer_max_badges. rewrite Hn.
    apply Z.eqb_neq in Hnz. rewrite Hnz. reflexivity.
Qed.

(** C8: at the con, for an under-13 attendee whose badge type is none of
    [ATTENDEE_BADGE], [FRIDAY], [SATURDAY], [SUNDAY], [age_discount] reads the
    local [discount] that no branch has bound, and raises. *)
Theorem age_discount_unbound (a : Attendee) (d : Z) :
  age_group_conf a !! "val" = Some (UNDER_13 c) ->
  age_group_conf a !! "discount" = Some d ->
  AT_THE_CON c = true ->
  contains (badge_type a) [ATTENDEE_BADGE c; FRIDAY c; SATURDAY c; SUNDAY c] = false ->
  age_discount c a = inl (UnboundLocalError "discount").
Proof.
  intros Hval Hdiscount Hcon Hbadge.
  unfold contains in Hbadge. simpl in Hbadge.
  repeat (apply orb_false_iff in Hbadge as [? Hbadge]).
  unfold age_discount, getitem, contains. simpl.
  rewrite Hval, Hdiscount, Hcon.
  rewrite bool_decide_eq_true_2 by (now exists (UNDER_13 c)).
  simpl. rewrite Z.eqb_refl. simpl.
  repeat match goal with H : (badge_type a =? _) = false |- _ => rewrite H; clear H end.
  simpl. destruct (d =? 0); reflexivity.
Qed.

(** Away from that case [age_discount] returns an integer: the negated
    configured discount, or the negated at-the-con discount of the badge
    type where that is larger. *)
Lemma age_discount_returns (a : Attendee) (d : Z) :
  age_group_conf a !! "discount" = Some d ->
  (age_group_conf a !! "val" = Some (UNDER_13 c) -> AT_THE_CON c = true ->
   contains (badge_type a) [ATTENDEE_BADGE c; FRIDAY c; SATURDAY c; SUNDAY c] = true) ->
  exists z, age_discount c a = inr z.
Proof.
  intros Hdiscount Hbadge.
  unfold age_discount, getitem.
  destruct (age_group_conf a !! "val") as [v|] eqn:Hval.
  - rewrite bool_decide_eq_true_2 by (now exists v). simpl.
    destruct ((v =? UNDER_13 c) && AT_THE_CON c) eqn:Hin; simpl.
    + apply andb_true_iff in Hin as [Hv Hcon]. apply Z.eqb_eq in Hv. subst v.
      specialize (Hbadge eq_refl Hcon).
      rewrite Hdiscount. simpl.
      unfold contains in *. simpl in *.
      destruct (badge_type a =? ATTENDEE_BADGE c); simpl.
      { destruct (d =? 0); simpl; [eauto | destruct (d <? 33); simpl; eauto]. }
      destruct (badge_type a =? FRIDAY c); simpl.
      { destruct (d =? 0); simpl; [eauto | destruct (d <? 13); simpl; eauto]. }
      destruct (badge_type a =? SUNDAY c) eqn:Hsun; simpl.
      { destruct (d =? 0); simpl; [eauto | destruct (d <? 13); simpl; eauto]. }
      destruct (badge_type a =? SATURDAY c); simpl; [| discriminate].
      destruct (d =? 0); simpl; [eauto | destruct (d <? 20); simpl; eauto].
    + rewrite Hdiscount. simpl. eauto.
  - rewrite bool_decide_eq_false_2 by (intros [v Hv]; discriminate).
    simpl. rewrite Hdiscount. simpl. eauto.
Qed.

Variable ribbon_ints_of : string -> list Z.
Variable add_opt : list Z -> Z -> result string.
Variable remove_opt : list Z -> Z -> result string.

(** Where no helper is called (no staff badge, no staff ribbon, and not a
    staffer lacking the volunteer ribbon) the adjustment reads
    [self.ribbon_intsm] and raises [AttributeError]. *)
Lemma staffing_adjustment_plain (a : Attendee) :
  badge_type a <> STAFF_BADGE c ->
  contains (STAFF_RIBBON c) (ribbon_ints ribbon_ints_of a) = false ->
  staffing a = false \/ contains (VOLUNTEER_RIBBON c) (ribbon_ints ribbon_ints_of a) = true ->
  _staffing_badge_and_ribbon_adjustments c ribbon_ints_of add_opt remove_opt a
  = inl (AttributeError "ribbon_intsm").
Proof.
  intros Hbadge Hribbon Hvol. apply Z.eqb_neq in Hbadge.
  unfold _staffing_badge_and_ribbon_adjustments. rewrite Hbadge, Hribbon. simpl.
  destruct Hvol as [-> | ->]; simpl; rewrite ?andb_false_r; simpl;
    rewrite Hbadge; reflexivity.
Qed.

(** C9: for an attendee whose badge type is not [STAFF_BADGE] the adjustment
    raises: a helper it calls does, or else it reads [self.ribbon_intsm], an
    attribute the attendee does not have.  Staffing is not set, also when
    the ribbons include [STAFF_RIBBON]. *)
Theorem staffing_adjustment_raises (a : Attendee) :
  badge_type a <> STAFF_BADGE c ->
  exists e,
    _staffing_badge_and_ribbon_adjustments c ribbon_ints_of add_opt remove_opt a = inl e.
Proof.
  intros Hbadge. apply Z.eqb_neq in Hbadge.
  unfold _staffing_badge_and_ribbon_adjustments. rewrite Hbadge. simpl.
  destruct (contains (STAFF_RIBBON c) (ribbon_ints ribbon_ints_of a)); simpl.
  - destruct (remove_opt _ _) as [e|stored]; simpl; [eauto |].
    rewrite Hbadge. simpl. eauto.
  - destruct (staffing a && true && true
              && negb (contains (VOLUNTEER_RIBBON c) (ribbon_ints ribbon_ints_of a))).
    + destruct (add_opt _ _) as [e|stored]; simpl; [eauto |].
      rewrite Hbadge. simpl. eauto.
    + simpl. rewrite Hbadge. simpl. eauto.
Qed.

(** With a [STAFF_BADGE], and where [remove_opt] returns, the adjustment
    completes: the volunteer ribbon is removed and staffing is set. *)
Lemma staffing_adjustment_staff_badge (a : Attendee) (stored : string) :
  badge_type a = STAFF_BADGE c ->
  remove_opt (ribbon_ints ribbon_ints_of a) (VOLUNTEER_RIBBON c) = inr stored ->
  exists a',
    _staffing_badge_and_ribbon_adjustments c ribbon_ints_of add_opt remove_opt a = inr a'
    /\ ribbon a' = stored
    /\ staffing a' = true.
Proof.
  intros Hbadge Hstored. apply Z.eqb_eq in Hbadge.
  unfold _staffing_badge_and_ribbon_adjustments. rewrite Hbadge. simpl.
  rewrite Hstored. simpl. rewrite Hbadge. simpl.
  destruct (negb _ && _); eexists; (split; [reflexivity |]); simpl; split; reflexivity.
Qed.

End WithConfig.

Lemma dealer_max_badges_bound_witness :
  dealer_max_badges config small_group <= 12
  /\ dealer_max_badges config_limited small_group = 20.
Proof.
  destruct (dealer_max_badges_bound config small_group) as [Hsmall _].
  destruct (Hsmall (or_introl eq_refl)) as (k & _ & _ & _ & Hle).
  destruct (dealer_max_badges_bound config_limited small_group) as [_ Hlimited].
  split; [exact Hle |].
  apply Hlimited; [reflexivity | discriminate].
Defined.

Lemma age_discount_unbound_witness :
  age_discount config child_guest = inl (UnboundLocalError "discount").
Proof.
  apply (age_discount_unbound config child_guest 0); reflexivity.
Defined.

Lemma staffing_adjustment_raises_witness :
  exists e,
    _staffing_badge_and_ribbon_adjustments config
      sample_ribbon_ints unbound_add_opt unbound_remove_opt plain_attendee
    = inl e.
Proof.
  apply (staffing_adjustment_raises config
           sample_ribbon_ints unbound_add_opt unbound_remove_opt plain_attendee).
  discriminate.
Defined.

(** The adjustment on the samples: a plain attendee, and a holder of the
    staff ribbon with the application's helpers in scope. *)
Example staffing_adjustment_samples :
  _staffing_badge_and_ribbon_adjustments config
    sample_ribbon_ints unbound_add_opt unbound_remove_opt plain_attendee
  = inl (AttributeError "ribbon_intsm")
  /\ _staffing_badge_and_ribbon_adjustments config
       sample_ribbon_ints sample_add_opt sample_remove_opt staff_ribbon_attendee
     = inl (AttributeError "ribbon_intsm")
  /\ _staffing_badge_and_ribbon_adjustments config
       sample_ribbon_ints sample_add_opt sample_remove_opt plain_attendee
     = inl (AttributeError "ribbon_intsm").
Proof. repeat split. Qed.

(** The exact values of [dealer_max_badges] on the samples. *)
Example dealer_max_badges_samples :
  dealer_max_badges config small_group = 6
  /\ dealer_max_badges config large_group = 12
  /\ dealer_max_badges config_limited large_group = 20.
Proof. repeat split. Qed.

End PluginSpec.

(** ** Facts about [sorted] *)

Module SortFacts.
Import Py PyFacts.
Import Stdlib.Sorting.Sorted.

Section Sorting.
Context {A : Type} (key : A -> Z) (reverse : bool).

Abbreviation earlier := (SortOrder.earlier key reverse).
Abbreviation in_order := (SortOrder.in_order key reverse).

Lemma sorted_cons (a : A) (l : list A) :
  sorted key reverse (a :: l) = insert_sorted earlier a (sorted key reverse l).
Proof. reflexivity. Qed.

Lemma earlier_in_order (y x : A) : earlier y x = true -> in_order y x.
Proof.
  unfold SortOrder.earlier, SortOrder.in_order. destruct reverse; intros H; apply Z.ltb_lt in H; lia.
Qed.

Lemma not_earlier_in_order (y x : A) : earlier y x = false -> in_order x y.
Proof.
  unfold SortOrder.earlier, SortOrder.in_order. destruct reverse; intros H; apply Z.ltb_ge in H; lia.
Qed.

Lemma earlier_key_differs (y x : A) : earlier y x = true -> key y <> key x.
Proof.
  unfold SortOrder.earlier. destruct reverse; intros H; apply Z.ltb_lt in H; lia.
Qed.

Lemma in_order_trans (x y z : A) : in_order x y -> in_order y z -> in_order x z.
Proof. unfold SortOrder.in_order. destruct reverse; lia. Qed.

Lemma insert_sorted_permutation (a : A) (l : list A) :
  Permutation (insert_sorted earlier a l) (a :: l).
Proof.
  induction l as [|y l IH]; simpl; [reflexivity |].
  destruct (earlier y a); [| reflexivity].
  rewrite IH. apply perm_swap.
Qed.

Lemma sorted_permutation (l : list A) : Permutation (sorted key reverse l) l.
Proof.
  induction l as [|a l IH]; [reflexivity |].
  rewrite sorted_cons, insert_sorted_permutation. now constructor.
Qed.

Lemma insert_sorted_in_order (a : A) (l : list A) :
  StronglySorted in_order l -> StronglySorted in_order (insert_sorted earlier a l).
Proof.
  induction 1 as [|y l Hl IH Hy]; simpl.
  - repeat constructor.
  - destruct (earlier y a) eqn:E.
    + constructor; [exact IH |].
      apply List.Forall_forall. intros x Hx.
      apply in_insert_sorted in Hx as [-> | Hx].
      * now apply earlier_in_order.
      * rewrite List.Forall_forall in Hy. now apply Hy.
    + apply not_earlier_in_order in E.
      constructor; [now constructor |].
      constructor; [exact E |].
      eapply List.Forall_impl; [| exact Hy].
      intros x Hx. now apply in_order_trans with y.
Qed.

Lemma sorted_in_order (l : list A) : StronglySorted in_order (sorted key reverse l).
Proof.
  induction l as [|a l IH]; [constructor |].
  rewrite sorted_cons. now apply insert_sorted_in_order.
Qed.

(** Stability: the elements of any one key keep their original order. *)
Lemma insert_sorted_stable (k : Z) (a : A) (l : list A) :
  List.filter (fun x => key x =? k) (insert_sorted earlier a l)
  = List.filter (fun x => key x =? k) (a :: l).
Proof.
  induction l as [|y l IH]; [reflexivity |].
  simpl insert_sorted. destruct (earlier y a) eqn:E; [| reflexivity].
  apply earlier_key_differs in E.
  simpl in *. rewrite IH.
  destruct (key y =? k) eqn:Ey, (key a =? k) eqn:Ea; try reflexivity.
  apply Z.eqb_eq in Ey, Ea. congruence.
Qed.

Lemma sorted_stable (k : Z) (l : list A) :
  List.filter (fun x => key x =? k) (sorted key reverse l)
  = List.filter (fun x => key x =? k) l.
Proof.
  induction l as [|a l IH]; [reflexivity |].
  rewrite sorted_cons, insert_sorted_stable.
  simpl. now rewrite IH.
Qed.

End Sorting.

End SortFacts.

(** ** The views of a receipt *)

Module ReceiptViewsSpec.
Import Py PyFacts SortFacts Commerce ReceiptViews.
Import Stdlib.Sorting.Sorted.

(** X1: [all_sorted_items_and_txns] holds exactly the items and the
    transactions of the receipt, in ascending order of [added], and entries
    added at the same instant keep the order items-then-transactions, each
    in receipt order. *)
Theorem all_sorted_is_a_stable_sort (r : ModelReceipt) :
  Permutation (all_sorted_items_and_txns r)
              (map inl (receipt_items r) ++ map inr (receipt_txns r))
  /\ StronglySorted (fun x y => entry_added x <= entry_added y)
                    (all_sorted_items_and_txns r)
  /\ (forall instant,
        List.filter (fun x => entry_added x =? instant) (all_sorted_items_and_txns r)
        = map inl (List.filter (fun i => item_added i =? instant) (receipt_items r))
          ++ map inr (List.filter (fun t => added t =? instant) (receipt_txns r))).
Proof.
  unfold all_sorted_items_and_txns. split; [apply sorted_permutation |].
  split; [apply (sorted_in_order entry_added false) |].
  intros instant. rewrite sorted_stable, List.filter_app. f_equal.
  - induction (receipt_items r) as [|i l IH]; simpl; [reflexivity |].
    destruct (item_added i =? instant); simpl; now rewrite IH.
  - induction (receipt_txns r) as [|t l IH]; simpl; [reflexivity |].
    destruct (added t =? instant); simpl; now rewrite IH.
Qed.

(** X2: the SQL side of [refund_total] is NULL on a receipt without a
    negative transaction, where the Python side is 0, and is the Python
    side's value on every other receipt. *)
Theorem refund_total_sides (r : ModelReceipt) :
  refund_total_expression r
  = match List.filter (fun txn => amount txn <? 0) (receipt_txns r) with
    | [] => None
    | _ :: _ => Some (refund_total r)
    end
  /\ (List.filter (fun txn => amount txn <? 0) (receipt_txns r) = [] -> refund_total r = 0).
Proof.
  unfold refund_total_expression, refund_total, sum_ints.
  destruct (List.filter _ (receipt_txns r)); split; try reflexivity; discriminate.
Qed.

Lemma sum_over_app {A : Type} (f : A -> Z) (l1 l2 : list A) :
  sum_over f (l1 ++ l2) = sum_over f l1 + sum_over f l2.
Proof. induction l1 as [|x l1 IH]; simpl; lia. Qed.

Lemma sum_over_le {A : Type} (f g : A -> Z) (l : list A) :
  Forall (fun x => f x <= g x) l -> sum_over f l <= sum_over g l.
Proof. induction 1; simpl; lia. Qed.

(** X3: every receipt item is either open or closed, never both, and
    [item_total] counts the closed items as well as the open ones. *)
Theorem open_and_closed_items (r : ModelReceipt) :
  Permutation (open_receipt_items r ++ closed_receipt_items r) (receipt_items r)
  /\ (forall item, In item (open_receipt_items r) -> In item (closed_receipt_items r) -> False)
  /\ item_total r
     = sum_over total_amount (open_receipt_items r)
       + sum_over total_amount (closed_receipt_items r).
Proof.
  unfold open_receipt_items, closed_receipt_items, item_total.
  rewrite sum_ints_map. split; [| split].
  - induction (receipt_items r) as [|i l IH]; simpl; [reflexivity |].
    destruct (truthy (datetime (item_closed i))); simpl.
    + etransitivity; [symmetry; apply Permutation_middle |]. now constructor.
    + now constructor.
  - intros item Ho Hc. apply List.filter_In in Ho as [_ Ho], Hc as [_ Hc].
    rewrite Hc in Ho. discriminate.
  - induction (receipt_items r) as [|i l IH]; simpl; [reflexivity |].
    destruct (truthy (datetime (item_closed i))); simpl; unfold total_amount in *; lia.
Qed.

Section WithMethod.
Variable STRIPE : Z.

(** X4: a cancelled transaction is neither pending nor counted as a
    payment, and a pending Stripe transaction is not counted as a payment:
    [pending_total] and [payment_total] never count the same Stripe charge. *)
Theorem cancelled_pending_counted (r : ModelReceipt) :
  Forall (fun txn => truthy (is_pending_charge txn) = false
                     /\ truthy (counts_as_payment STRIPE txn) = false)
         (cancelled_txns r)
  /\ Forall (fun txn => method txn = STRIPE ->
                        truthy (counts_as_payment STRIPE txn) = false)
            (pending_txns r).
Proof.
  split; apply List.Forall_forall; intros txn Hin;
    apply List.filter_In in Hin as [_ Ht].
  - unfold is_pending_charge, counts_as_payment, and_, or_, not_.
    destruct (cancelled txn); simpl in *; [| discriminate]. split; [| reflexivity].
    destruct (truthy (text (intent_id txn))) eqn:Ei; simpl.
    + destruct (truthy (text (charge_id txn))); reflexivity.
    + rewrite !Ei. reflexivity.
  - intros Hm. apply Z.eqb_eq in Hm.
    unfold is_pending_charge, counts_as_payment, and_, or_, not_ in *.
    destruct (truthy (text (intent_id txn))) eqn:Ei; simpl in Ht;
      [| rewrite !Ei in Ht; discriminate].
    destruct (truthy (text (charge_id txn))) eqn:Ec; simpl in Ht; [discriminate |].
    destruct (cancelled txn); simpl in *; [discriminate |].
    rewrite Hm. reflexivity.
Qed.

(** X5: [payment_total] never exceeds the sum of the amounts of the
    transactions it counts. *)
Theorem payment_total_capped (r : ModelReceipt) :
  payment_total STRIPE r
  <= sum_over amount
       (List.filter (fun txn => truthy (counts_as_payment STRIPE txn)) (receipt_txns r)).
Proof.
  unfold payment_total. rewrite sum_ints_map. apply sum_over_le.
  apply List.Forall_forall. intros txn _. unfold receipt_share. apply Z.le_min_l.
Qed.

Lemma receipt_share_with_late_item (r : ModelReceipt) (item : ReceiptItem)
  (txn : ReceiptTransaction) :
  added txn < item_added item ->
  receipt_share (with_item r item) txn = receipt_share r txn.
Proof.
  intros Hlate. unfold receipt_share, with_item. simpl.
  rewrite List.filter_app. simpl.
  apply Z.leb_gt in Hlate. rewrite Hlate, app_nil_r. reflexivity.
Qed.

(** X6: an item added after every transaction of the receipt leaves
    [payment_total] as it was, and raises [current_receipt_amount] by the
    item's amount times its count. *)
Theorem late_item_raises_balance (r : ModelReceipt) (item : ReceiptItem) :
  Forall (fun txn => added txn < item_added item) (receipt_txns r) ->
  payment_total STRIPE (with_item r item) = payment_total STRIPE r
  /\ current_receipt_amount STRIPE (with_item r item)
     = current_receipt_amount STRIPE r + item_amount item * item_count item.
Proof.
  intros Hlate. rewrite List.Forall_forall in Hlate.
  assert (Hpay : payment_total STRIPE (with_item r item) = payment_total STRIPE r).
  { unfold payment_total. simpl. f_equal. apply List.map_ext_in.
    intros txn Hin. apply List.filter_In in Hin as [Hin _].
    apply receipt_share_with_late_item, Hlate, Hin. }
  split; [exact Hpay |].
  unfold current_receipt_amount, txn_total. rewrite Hpay.
  unfold item_total, refund_total. simpl.
  rewrite !sum_ints_map, sum_over_app. simpl. lia.
Qed.

End WithMethod.

Lemma late_item_raises_balance_witness :
  payment_total 1 (with_item Examples.Receipts.overpaid Samples.Receipts.late_shirts) = 1000
  /\ current_receipt_amount 1
       (with_item Examples.Receipts.overpaid Samples.Receipts.late_shirts)
     = 0 + 2000 * 2.
Proof.
  apply (late_item_raises_balance 1 Examples.Receipts.overpaid Samples.Receipts.late_shirts).
  repeat constructor.
Defined.

(** X7: what [last_incomplete_txn] returns is, in receipt order, the first
    of the pending transactions added at the latest instant. *)
Theorem last_incomplete_is_first_of_latest (r : ModelReceipt) (t : ReceiptTransaction) :
  last_incomplete_txn r = inr (Some t) ->
  Forall (fun t' => added t' <= added t) (pending_txns r)
  /\ hd_error (List.filter (fun t' => added t' =? added t) (pending_txns r)) = Some t.
Proof.
  unfold last_incomplete_txn.
  destruct (pending_txns r) as [|t0 ts] eqn:Ep; [discriminate |].
  destruct (first (sorted added true (t0 :: ts))) as [e|h] eqn:Eh; [discriminate |].
  intros H. injection H as <-.
  split; [now apply first_sorted_reverse |].
  rewrite <- (sorted_stable added true).
  destruct (sorted added true (t0 :: ts)) as [|h' s]; simpl in Eh; [discriminate |].
  injection Eh as ->. simpl. rewrite Z.eqb_refl. reflexivity.
Qed.

Lemma last_incomplete_is_first_of_latest_witness :
  Forall (fun t' => added t' <= 40) (pending_txns Examples.Receipts.busy)
  /\ hd_error (List.filter (fun t' => added t' =? 40) (pending_txns Examples.Receipts.busy))
     = Some Examples.Receipts.first_pending.
Proof.
  apply (last_incomplete_is_first_of_latest Examples.Receipts.busy
           Examples.Receipts.first_pending).
  reflexivity.
Defined.

End ReceiptViewsSpec.

(** ** The calls a transaction makes to the payment processor *)

Module ProcessorSpec.
Import Py PyFacts Commerce.

Section Processor.
Variable stripe_Refund_list : option string -> result (list Refund).
Variable stripe_PaymentIntent_retrieve : option string -> result PaymentIntent.
Variable Paid : Type.
Variable Charge_mark_paid_from_intent_id : option string -> string -> result Paid.

Lemma stripe_id_of_intent (t : ReceiptTransaction) :
  truthy (text (charge_id t)) = false ->
  truthy (stripe_id t) = truthy (text (intent_id t)).
Proof. intros Hc. unfold stripe_id, or_. rewrite Hc. reflexivity. Qed.

(** X8: [get_stripe_intent] never raises, whatever the processor does:
    without a Stripe id it returns [None] and makes no call; otherwise it
    retrieves the intent once, and a failure of that call is logged and
    turned into [None]. *)
Theorem get_stripe_intent_never_raises (t : ReceiptTransaction) (log : list call) :
  exists intent calls,
    get_stripe_intent stripe_PaymentIntent_retrieve t log = (inr intent, log ++ calls)
    /\ (if truthy (stripe_id t)
        then match stripe_PaymentIntent_retrieve (intent_id t) with
             | inr found =>
                 intent = Some found /\ calls = [PaymentIntent_retrieve (intent_id t)]
             | inl e =>
                 intent = None
                 /\ calls = [PaymentIntent_retrieve (intent_id t); log_error e]
             end
        else intent = None /\ calls = []).
Proof.
  unfold get_stripe_intent, try_except, bind, perform, ret.
  destruct (truthy (stripe_id t)); simpl.
  - destruct (stripe_PaymentIntent_retrieve (intent_id t)) as [e|found].
    + exists None, [PaymentIntent_retrieve (intent_id t); log_error e].
      rewrite <- app_assoc. repeat split.
    + exists (Some found), [PaymentIntent_retrieve (intent_id t)]. repeat split.
  - exists None, []. rewrite app_nil_r. repeat split.
Qed.


(** X10: for a transaction with an intent id and no charge id, an intent
    with charges makes [check_paid_from_stripe] mark the intent paid with
    the first of them, once, and return what that call returns (or raise
    what it raises). *)
Theorem check_paid_marks_first_charge (t : ReceiptTransaction) (log : list call)
  (charge : string) (others : list string) :
  truthy (text (charge_id t)) = false ->
  truthy (text (intent_id t)) = true ->
  stripe_PaymentIntent_retrieve (intent_id t)
  = inr {| charges := Some {| data := charge :: others |} |} ->
  check_paid_from_stripe stripe_PaymentIntent_retrieve Paid
    Charge_mark_paid_from_intent_id t log
  = (match Charge_mark_paid_from_intent_id (intent_id t) charge with
     | inr paid => inr (t, Some paid)
     | inl e => inl e
     end,
     log ++ [PaymentIntent_retrieve (intent_id t);
             mark_paid_from_intent_id (intent_id t) charge]).
Proof.
  intros Hc Hi Hr.
  unfold check_paid_from_stripe, get_stripe_intent, try_except, bind, perform, ret, lift.
  rewrite Hc, (stripe_id_of_intent t Hc), Hi. simpl. rewrite Hr. simpl.
  rewrite <- app_assoc.
  destruct (Charge_mark_paid_from_intent_id (intent_id t) charge); reflexivity.
Qed.

(** X11: [update_amount_refunded] overwrites [refunded], it does not add to
    it: run again on its own result, with the processor listing the same
    refunds, it returns that result unchanged. *)
Theorem update_amount_refunded_again (t : ReceiptTransaction) (log : list call)
  (refunds : list Refund) :
  stripe_Refund_list (intent_id t) = inr refunds ->
  exists t' log',
    update_amount_refunded stripe_Refund_list t log = (inr t', log')
    /\ exists log'', update_amount_refunded stripe_Refund_list t' log' = (inr t', log'').
Proof.
  intros Hr. unfold update_amount_refunded, bind, perform, ret.
  destruct (truthy (text (intent_id t))) eqn:Hi; simpl.
  - rewrite Hr. simpl. eexists _, _. split; [reflexivity |].
    simpl. rewrite Hi. simpl. rewrite Hr. simpl. eexists. reflexivity.
  - eexists _, _. split; [reflexivity |]. rewrite Hi. simpl. eexists. reflexivity.
Qed.

End Processor.


Lemma check_paid_marks_first_charge_witness :
  check_paid_from_stripe Samples.Receipts.two_charges string Samples.Receipts.marked
    Examples.Receipts.pending_payment []
  = (inr (Examples.Receipts.pending_payment, Some "ch_1"),
     [PaymentIntent_retrieve (Some "pi_1"); mark_paid_from_intent_id (Some "pi_1") "ch_1"]).
Proof.
  apply (check_paid_marks_first_charge Samples.Receipts.two_charges string
           Samples.Receipts.marked Examples.Receipts.pending_payment [] "ch_1" ["ch_2"]);
    reflexivity.
Defined.

Lemma update_amount_refunded_again_witness :
  exists t' log',
    update_amount_refunded Examples.Receipts.two_refunds
      Examples.Receipts.pending_payment [] = (inr t', log')
    /\ exists log'',
         update_amount_refunded Examples.Receipts.two_refunds t' log' = (inr t', log'').
Proof.
  apply (update_amount_refunded_again Examples.Receipts.two_refunds
           Examples.Receipts.pending_payment [] _ eq_refl).
Defined.

End ProcessorSpec.

(** ** Optional fields, locked fields, consents and phone checks *)

Module FormsSpec.
Import Py Forms AttendeeForms.

Section WithConfig.
Variable c : Config.

(** X12: unless [PersonalInfo] locks every field, it locks name fields only:
    a locked field that is not one of the four name fields means the whole
    form is locked. *)
Theorem personal_info_locks_names_only (form : MagForm) (a : Attendee) (name : string) :
  ~ In name ["first_name"; "last_name"; "legal_name"; "same_legal_name"] ->
  In name (PersonalInfo.get_non_admin_locked_fields c form a) ->
  PersonalInfo.get_non_admin_locked_fields c form a = keys form.
Proof.
  unfold PersonalInfo.get_non_admin_locked_fields. intros Hname.
  destruct (is_new a || (badge_status a =? PENDING_STATUS c)); [intros [] |].
  destruct (negb (is_valid a) || (badge_status a =? REFUNDED_STATUS c)); [reflexivity |].
  destruct (placeholder a); [intros [] |].
  intros Hin. contradiction.
Qed.

(** X13: [OtherInfo] locks the admin-only [placeholder] field, when the
    form has it, for every attendee that is not a placeholder. *)
Theorem other_info_locks_placeholder (form : MagForm) (a : Attendee) :
  placeholder a = false ->
  In "placeholder" (keys form) ->
  In "placeholder" (OtherInfo.get_non_admin_locked_fields c form a).
Proof.
  intros Hp Hkey. unfold OtherInfo.get_non_admin_locked_fields. rewrite Hp. simpl.
  destruct (is_new a); [now left |].
  destruct (negb (is_valid a) || (badge_status a =? REFUNDED_STATUS c)); [exact Hkey |].
  destruct (_ || _); now left.
Qed.

(** X14: for a valid attendee whose badge is not refunded, [BadgeExtras]
    locks nothing but [badge_type], [amount_extra] and [extra_donation],
    and it locks all three once the attendee, no longer new, has an active
    receipt. *)
Theorem badge_extras_locks_prices_only (form : MagForm) (a : Attendee) :
  is_valid a = true ->
  badge_status a <> REFUNDED_STATUS c ->
  Forall (fun name => In name ["badge_type"; "amount_extra"; "extra_donation"])
         (BadgeExtras.get_non_admin_locked_fields c form a)
  /\ (is_new a = false -> active_receipt a <> None ->
      BadgeExtras.get_non_admin_locked_fields c form a
      = ["badge_type"; "amount_extra"; "extra_donation"]).
Proof.
  intros Hv Hs. apply Z.eqb_neq in Hs.
  unfold BadgeExtras.get_non_admin_locked_fields. rewrite Hv, Hs. simpl. split.
  - destruct (is_new a); [constructor |].
    destruct (_ || _).
    + repeat constructor; simpl; tauto.
    + destruct (bool_decide _); repeat constructor.
  - intros -> Hr. destruct (active_receipt a); [reflexivity | contradiction].
Qed.

End WithConfig.

Lemma personal_info_locks_names_only_witness :
  PersonalInfo.get_non_admin_locked_fields Examples.Attendees.config
    Samples.People.contact_form Examples.Attendees.refunded_attendee
  = ["first_name"; "last_name"; "email"; "cellphone"].
Proof.
  apply (personal_info_locks_names_only Examples.Attendees.config
           Samples.People.contact_form Examples.Attendees.refunded_attendee "email").
  - simpl. intros [H | [H | [H | [H | []]]]]; discriminate.
  - simpl. tauto.
Defined.

Lemma other_info_locks_placeholder_witness :
  In "placeholder"
     (OtherInfo.get_non_admin_locked_fields Examples.Attendees.config
        Examples.Attendees.other_info Samples.People.completed_attendee).
Proof.
  apply (other_info_locks_placeholder Examples.Attendees.config
           Examples.Attendees.other_info Samples.People.completed_attendee).
  - reflexivity.
  - simpl. tauto.
Defined.

Lemma badge_extras_locks_prices_only_witness :
  BadgeExtras.get_non_admin_locked_fields Examples.Attendees.config
    Examples.Attendees.badge_extras Samples.People.completed_attendee
  = ["badge_type"; "amount_extra"; "extra_donation"].
Proof.
  apply (badge_extras_locks_prices_only Examples.Attendees.config
           Examples.Attendees.badge_extras Samples.People.completed_attendee);
    [reflexivity | discriminate | reflexivity | discriminate].
Defined.

(** X15: for an unclaimed group badge or a named placeholder,
    [get_optional_fields] ignores the form and the inherited list, and the
    phone number stays required; for everyone else the inherited list comes
    first, and the phone number is optional unless the attendee is a dealer
    who did not copy the business phone. *)
Theorem optional_fields_of_personal_info (super_optional : list string)
  (form : PersonalInfoData) (a : Registrant) :
  (truthy (or_ (PersonalInfo.unassigned_group_reg a) (PersonalInfo.valid_placeholder a))
   = true ->
   (forall super_optional' form',
      PersonalInfo.get_optional_fields super_optional form a
      = PersonalInfo.get_optional_fields super_optional' form' a)
   /\ ~ In "cellphone" (PersonalInfo.get_optional_fields super_optional form a))
  /\ (truthy (or_ (PersonalInfo.unassigned_group_reg a) (PersonalInfo.valid_placeholder a))
      = false ->
      (exists added, PersonalInfo.get_optional_fields super_optional form a
                     = super_optional ++ added)
      /\ (~ In "cellphone" super_optional ->
          (In "cellphone" (PersonalInfo.get_optional_fields super_optional form a)
           <-> copy_phone form = true \/ is_dealer a = false))).
Proof.
  unfold PersonalInfo.get_optional_fields. split; intros Hskip; rewrite Hskip.
  - split; [reflexivity |].
    simpl. intros H. repeat (destruct H as [H | H]; [discriminate |]). exact H.
  - split.
    + destruct (same_legal_name form), (copy_email form),
        (copy_phone form || negb (is_dealer a)), (copy_address form),
        (no_onsite_contact form);
        rewrite <- ?app_assoc; eexists; try reflexivity;
        symmetry; apply app_nil_r.
    + intros Hsuper.
      assert (Hphone : copy_phone form || negb (is_dealer a) = true
                       <-> copy_phone form = true \/ is_dealer a = false).
      { rewrite orb_true_iff, negb_true_iff. reflexivity. }
      rewrite <- Hphone.
      destruct (same_legal_name form), (copy_email form),
        (copy_phone form || negb (is_dealer a)), (copy_address form),
        (no_onsite_contact form);
        rewrite ?in_app_iff; simpl; split;
        solve [ reflexivity | discriminate | intuition discriminate ].
Qed.

Lemma optional_fields_of_personal_info_witness :
  ~ In "cellphone"
      (PersonalInfo.get_optional_fields ["badge_printed_name"]
         Samples.People.everything_copied Samples.People.unclaimed_badge)
  /\ In "cellphone"
       (PersonalInfo.get_optional_fields ["badge_printed_name"]
          Samples.People.nothing_copied Samples.People.visitor).
Proof.
  destruct (optional_fields_of_personal_info ["badge_printed_name"]
              Samples.People.everything_copied Samples.People.unclaimed_badge)
    as [Hfixed _].
  destruct (optional_fields_of_personal_info ["badge_printed_name"]
              Samples.People.nothing_copied Samples.People.visitor)
    as [_ Hlist].
  split.
  - apply Hfixed. reflexivity.
  - destruct (Hlist eq_refl) as [_ Hphone]. apply Hphone.
    + simpl. intros [H | []]. discriminate.
    + right. reflexivity.
Defined.

Section Phones.
Variable invalid_phone_number : option string -> bool.
Variable COLLECT_FULL_ADDRESS : bool.

(** X16: [validate_cellphone] passes an empty phone number without asking
    the phone check, and never passes a phone number that is the emergency
    contact's; [validate_ec_phone] passes everything for an attendee from
    abroad. *)
Theorem phone_checks (form : PersonalInfoData) (ec_phone data : option string) :
  (truthy (text data) = false ->
   validate_cellphone invalid_phone_number ec_phone data = Passed)
  /\ (truthy (text data) = true -> data = ec_phone ->
      validate_cellphone invalid_phone_number ec_phone data <> Passed)
  /\ (international form = true ->
      validate_ec_phone invalid_phone_number COLLECT_FULL_ADDRESS form data = Passed).
Proof.
  unfold validate_cellphone, validate_ec_phone. split; [| split].
  - intros ->. reflexivity.
  - intros -> <-. rewrite bool_decide_eq_true_2 by reflexivity.
    destruct (invalid_phone_number data); discriminate.
  - intros ->. reflexivity.
Qed.

End Phones.

Lemma phone_checks_witness :
  validate_cellphone Samples.People.ten_characters (Some "2025550100") (Some "") = Passed
  /\ validate_cellphone Samples.People.ten_characters (Some "2025550100") (Some "2025550100")
     <> Passed
  /\ validate_ec_phone Samples.People.ten_characters true
       Samples.People.everything_copied (Some "+44 20 7946 0958") = Passed.
Proof.
  destruct (phone_checks Samples.People.ten_characters true
              Samples.People.everything_copied (Some "2025550100") (Some ""))
    as (Hempty & _ & Habroad_unused).
  destruct (phone_checks Samples.People.ten_characters true
              Samples.People.everything_copied (Some "2025550100") (Some "2025550100"))
    as (_ & Hsame & _).
  destruct (phone_checks Samples.People.ten_characters true
              Samples.People.everything_copied (Some "2025550100")
              (Some "+44 20 7946 0958"))
    as (_ & _ & Habroad).
  split; [apply Hempty; reflexivity |].
  split; [apply Hsame; reflexivity | apply Habroad; reflexivity].
Defined.

Lemma append_empty (s : string) : (s ++ "")%string = s.
Proof.
  induction s as [|ch s IH]; [reflexivity |].
  change (String ch (s ++ "")%string = String ch s). now rewrite IH.
Qed.

Lemma append_assoc (s1 s2 s3 : string) :
  ((s1 ++ s2) ++ s3)%string = (s1 ++ (s2 ++ s3))%string.
Proof.
  induction s1 as [|ch s1 IH]; [reflexivity |].
  change (String ch ((s1 ++ s2) ++ s3)%string = String ch (s1 ++ (s2 ++ s3))%string).
  now rewrite IH.
Qed.

Lemma append_grows (s extra : string) :
  extra <> "" -> String.eqb (s ++ extra) s = false.
Proof.
  intros Hextra. apply String.eqb_neq. intros Heq.
  apply Hextra. apply (String.app_inj s). now rewrite append_empty.
Qed.

(** X17: [pii_consent_label] is the base label, then the enabled features
    in the order hotels, donations, accessibility, then a comma exactly
    when some feature is enabled, then the closing words. *)
Theorem pii_consent_label_shape (ORGANIZATION_NAME : string)
  (HOTELS_ENABLED DONATIONS_ENABLED ACCESSIBILITY_SERVICES_ENABLED : bool) :
  Consents.pii_consent_label ORGANIZATION_NAME
    HOTELS_ENABLED DONATIONS_ENABLED ACCESSIBILITY_SERVICES_ENABLED
  = (Consents.base_label ORGANIZATION_NAME
     ++ (if HOTELS_ENABLED then ", hotel accommodations" else "")
     ++ (if DONATIONS_ENABLED then ", donations" else "")
     ++ (if ACCESSIBILITY_SERVICES_ENABLED then ", accessibility needs" else "")
     ++ (if HOTELS_ENABLED || DONATIONS_ENABLED || ACCESSIBILITY_SERVICES_ENABLED
         then "," else "")
     ++ " or volunteer opportunities selected at sign-up.")%string.
Proof.
  unfold Consents.pii_consent_label.
  generalize (Consents.base_label ORGANIZATION_NAME). intros base.
  destruct HOTELS_ENABLED, DONATIONS_ENABLED, ACCESSIBILITY_SERVICES_ENABLED; simpl;
    rewrite ?append_assoc;
    try (rewrite append_grows by discriminate; simpl; rewrite ?append_assoc; reflexivity).
  rewrite String.eqb_refl. reflexivity.
Qed.

End FormsSpec.

(** ** Running the migration again, and its reflection listener *)

Module MigrationRuns.
Import Py Migration Reflection.

(** X18: [upgrade] runs exactly on the schemas that have an [access_group]
    table with neither a [start_time] nor an [end_time] column; on a schema
    without the table it fails naming the table. *)
Theorem upgrade_runs_iff (schema : gmap string (list Column)) :
  ((exists schema', upgrade schema = inr schema')
   <-> exists cols, schema !! "access_group" = Some cols
                    /\ has_column "start_time" cols = false
                    /\ has_column "end_time" cols = false)
  /\ (schema !! "access_group" = None ->
      upgrade schema = inl (NoSuchTable "access_group")).
Proof.
  split; [split |].
  - intros [schema' Hup].
    apply MigrationSpec.upgrade_inv in Hup as (cols & Hcols & Hs & He & _).
    now exists cols.
  - intros (cols & Hcols & Hs & He).
    unfold upgrade, and_then, add_column. rewrite Hcols. simpl. rewrite Hs.
    rewrite lookup_insert_eq, MigrationSpec.has_column_app, He. simpl. eauto.
  - intros Hnone. unfold upgrade, and_then, add_column. rewrite Hnone. reflexivity.
Qed.

(** X19: neither step runs twice in a row: after [upgrade], another
    [upgrade] fails on the [start_time] column that is already there, and
    after [downgrade], another [downgrade] fails on the [start_time] column
    that is gone. *)
Theorem migration_steps_run_once (schema schema' : gmap string (list Column)) :
  (upgrade schema = inr schema' ->
   upgrade schema' = inl (DuplicateColumn "access_group" "start_time"))
  /\ (downgrade schema = inr schema' ->
      downgrade schema' = inl (NoSuchColumn "access_group" "start_time")).
Proof.
  split.
  - intros Hup. apply MigrationSpec.upgrade_inv in Hup as (cols & _ & _ & _ & ->).
    unfold upgrade, and_then, add_column. rewrite lookup_insert_eq. simpl.
    rewrite MigrationSpec.has_column_app. simpl. rewrite orb_true_r. reflexivity.
  - intros Hdown. apply MigrationSpec.downgrade_inv in Hdown as (cols & _ & ->).
    unfold downgrade, and_then, drop_column. rewrite lookup_insert_eq.
    assert (Hgone : has_column "start_time" (Examples.Schemas.other_columns cols) = false).
    { unfold Examples.Schemas.other_columns, has_column.
      induction cols as [|col cols IH]; simpl; [reflexivity |].
      destruct (String.eqb (col_name col) "start_time") eqn:E; simpl; [exact IH |].
      destruct (String.eqb (col_name col) "end_time"); simpl; [exact IH |].
      rewrite E. exact IH. }
    rewrite Hgone. reflexivity.
Qed.

Lemma sample_upgrade : upgrade Examples.Schemas.before = inr Examples.Schemas.after.
Proof.
  unfold upgrade, and_then, add_column, Examples.Schemas.before.
  rewrite lookup_insert_eq. simpl. rewrite lookup_insert_eq. simpl.
  rewrite insert_insert_eq. reflexivity.
Qed.

Lemma sample_downgrade : downgrade Examples.Schemas.after = inr Examples.Schemas.before.
Proof. apply MigrationSpec.downgrade_after_upgrade, sample_upgrade. Qed.

Lemma migration_steps_run_once_witness :
  upgrade Examples.Schemas.after = inl (DuplicateColumn "access_group" "start_time")
  /\ downgrade Examples.Schemas.before = inl (NoSuchColumn "access_group" "start_time").
Proof.
  split.
  - apply (migration_steps_run_once Examples.Schemas.before Examples.Schemas.after).
    exact sample_upgrade.
  - apply (migration_steps_run_once Examples.Schemas.after Examples.Schemas.before).
    exact sample_downgrade.
Defined.

Section Dialect.
Variable is_sqlite : bool.

(** With a [default] entry the listener either keeps the dict, or, on
    SQLite's bare default, replaces that entry. *)
Lemma listener_cases (column_info : gmap string value) (v : value) :
  column_info !! "default" = Some v ->
  (v <> VStr "datetime('now', 'utc')"
   /\ sqlite_column_reflect_listener is_sqlite column_info = inr column_info)
  \/ (v = VStr "datetime('now', 'utc')"
      /\ sqlite_column_reflect_listener is_sqlite column_info
         = inr (<["default" := VStr (utcnow_server_default is_sqlite)]> column_info)).
Proof.
  intros Hd. unfold sqlite_column_reflect_listener. rewrite Hd.
  destruct v as [| | |default|]; try (left; split; [discriminate | reflexivity]).
  destruct (String.eqb default "datetime('now', 'utc')") eqn:E.
  - apply String.eqb_eq in E. subst default. right. split; reflexivity.
  - apply String.eqb_neq in E. left. split; [congruence | reflexivity].
Qed.

(** X20: where the reflected column has a [default] entry the listener
    changes no other entry, leaves a default that is not SQLite's bare
    [datetime('now', 'utc')], and run again changes nothing more; where the
    entry is missing it raises [KeyError]. *)
Theorem reflect_listener_settles (column_info column_info' : gmap string value) :
  sqlite_column_reflect_listener is_sqlite column_info = inr column_info' ->
  (forall key, key <> "default" -> column_info' !! key = column_info !! key)
  /\ column_info' !! "default" <> Some (VStr "datetime('now', 'utc')")
  /\ column_info' !! "default" <> None
  /\ sqlite_column_reflect_listener is_sqlite column_info' = inr column_info'.
Proof.
  intros Hrun.
  destruct (column_info !! "default") as [v|] eqn:Hd;
    [| unfold sqlite_column_reflect_listener in Hrun; rewrite Hd in Hrun; discriminate].
  destruct (listener_cases column_info v Hd) as [[Hv Hkeep] | [Hv Hset]].
  - rewrite Hkeep in Hrun. injection Hrun as <-. rewrite Hd.
    repeat split; congruence.
  - rewrite Hset in Hrun. injection Hrun as <-. rewrite lookup_insert_eq.
    split; [intros key Hkey; now rewrite lookup_insert_ne |].
    split; [unfold utcnow_server_default; destruct is_sqlite; discriminate |].
    split; [discriminate |].
    destruct (listener_cases
                (<["default" := VStr (utcnow_server_default is_sqlite)]> column_info)
                (VStr (utcnow_server_default is_sqlite)))
      as [[_ Hkeep] | [Hv' _]].
    + apply lookup_insert_eq.
    + exact Hkeep.
    + unfold utcnow_server_default in Hv'. destruct is_sqlite; discriminate.
Qed.

End Dialect.

Lemma reflect_listener_settles_witness :
  (forall key, key <> "default" ->
     <["default" := VStr "(datetime('now', 'utc'))"]> Samples.Columns.reflected !! key
     = Samples.Columns.reflected !! key)
  /\ <["default" := VStr "(datetime('now', 'utc'))"]> Samples.Columns.reflected !! "default"
     <> Some (VStr "datetime('now', 'utc')")
  /\ <["default" := VStr "(datetime('now', 'utc'))"]> Samples.Columns.reflected !! "default"
     <> None
  /\ sqlite_column_reflect_listener true
       (<["default" := VStr "(datetime('now', 'utc'))"]> Samples.Columns.reflected)
     = inr (<["default" := VStr "(datetime('now', 'utc'))"]> Samples.Columns.reflected).
Proof.
  apply (reflect_listener_settles true Samples.Columns.reflected).
  reflexivity.
Defined.

End MigrationRuns.

(** ** Dealer groups *)

Module DealersSpec.
Import Py Dealers.

Lemma int_of_decimal_between (d : Q) (n : Z) :
  0 <= n -> (inject_Z n < d)%Q -> (d < inject_Z (n + 1))%Q -> int_of_decimal d = n.
Proof.
  destruct d as [a b]. unfold int_of_decimal, Qlt. simpl. intros Hn Hlo Hhi.
  rewrite Z.quot_div_nonneg by nia.
  symmetry. apply Z.div_unique with (r := a - n * Z.pos b); nia.
Qed.

Lemma Qceiling_between (d : Q) (n : Z) :
  (inject_Z n < d)%Q -> (d < inject_Z (n + 1))%Q -> Qceiling d = n + 1.
Proof.
  intros Hlo Hhi.
  pose proof (Qle_ceiling d) as Hle. pose proof (Qceiling_lt d) as Hlt.
  assert (H1 : (inject_Z n < inject_Z (Qceiling d))%Q) by (eapply Qlt_le_trans; eassumption).
  assert (H2 : (inject_Z (Qceiling d - 1) < inject_Z (n + 1))%Q)
    by (eapply Qlt_trans; eassumption).
  rewrite <- Zlt_Qlt in H1, H2. lia.
Qed.

Section WithConfig.
Variable c : Config.

(** X21: a table count strictly between [n] and [n + 1] is rounded down for
    the price and up for the badges: with no table fee the cost is the
    price of [n] tables, while (with no [MAX_DEALERS]) the group may have
    the badges of [n + 1] tables, at most 12. *)
Theorem tables_round_down_for_cost (g : Group) (n : Z) :
  0 <= n ->
  (inject_Z n < Plugin.tables (row g))%Q ->
  (Plugin.tables (row g) < inject_Z (n + 1))%Q ->
  table_fee g = 0 ->
  Plugin.MAX_DEALERS (base c) = None ->
  table_cost c g = TABLE_PRICES c n
  /\ Plugin.dealer_max_badges (base c) (row g) = Z.min (3 * (n + 1)) 12.
Proof.
  intros Hn Hlo Hhi Hfee Hmax. split.
  - unfold table_cost. rewrite Hfee. simpl.
    now rewrite (int_of_decimal_between _ n).
  - unfold Plugin.dealer_max_badges. rewrite Hmax, (Qceiling_between _ n) by assumption.
    f_equal. lia.
Qed.

(** X22: [tables_repr] shows "No Table" for no table; for a fraction of a
    table (not zero, strictly between -1 and 1) the index is -1, and it
    shows the label of the last table option. *)
Theorem tables_repr_of_a_fraction (g : Group) (opts : list (Z * string))
  (last_opt : Z * string) :
  TABLE_OPTS c = opts ++ [last_opt] ->
  (Qnum (Plugin.tables (row g)) = 0 -> tables_repr c g = inr "No Table")
  /\ (Qnum (Plugin.tables (row g)) <> 0 ->
      (inject_Z (-1) < Plugin.tables (row g))%Q ->
      (Plugin.tables (row g) < inject_Z 1)%Q ->
      tables_repr c g = inr (snd last_opt)).
Proof.
  intros Hopts. unfold tables_repr, truthy_decimal. split.
  - intros ->. reflexivity.
  - intros Hnz Hlo Hhi. apply Z.eqb_neq in Hnz. rewrite Hnz. simpl.
    assert (Hint : int_of_decimal (Plugin.tables (row g)) = 0).
    { destruct (Plugin.tables (row g)) as [a b]. unfold int_of_decimal, Qlt in *.
      simpl in *. apply Z.quot_small_iff; lia. }
    rewrite Hint, Hopts. unfold list_getitem.
    change (0 - 1 <? 0) with true. cbv iota. rewrite length_app. simpl length.
    replace (0 - 1 + Z.of_nat (length opts + 1)) with (Z.of_nat (length opts)) by lia.
    destruct (Z.of_nat (length opts) <? 0) eqn:E; [apply Z.ltb_lt in E; lia |].
    rewrite Nat2Z.id, nth_error_app2, Nat.sub_diag by lia. reflexivity.
Qed.

(** X23: [guest_groups_approved] changes nothing but [status], changes it
    only from unapproved to approved and only for a group led by a guest,
    and run again it changes nothing more. *)
Theorem guest_groups_approved_settles (g : Group) :
  guest_groups_approved c (guest_groups_approved c g) = guest_groups_approved c g
  /\ set_status (guest_groups_approved c g) (status g) = g
  /\ (status (guest_groups_approved c g) <> status g ->
      leader g = Some (GUEST_BADGE c)
      /\ status g = UNAPPROVED c
      /\ status (guest_groups_approved c g) = APPROVED c).
Proof.
  unfold guest_groups_approved.
  destruct g as [r tf [lead|] st]; simpl; [| repeat split; congruence].
  destruct ((lead =? GUEST_BADGE c) && (st =? UNAPPROVED c)) eqn:E; simpl.
  - apply andb_true_iff in E as [El Es].
    apply Z.eqb_eq in El, Es. subst lead st.
    rewrite Z.eqb_refl. simpl.
    destruct (APPROVED c =? UNAPPROVED c); repeat split; reflexivity.
  - rewrite E. repeat split; congruence.
Qed.

End WithConfig.

Lemma tables_round_down_for_cost_witness :
  table_cost Samples.Floor.dealers Samples.Floor.guest_group = inr 10000
  /\ Plugin.dealer_max_badges Examples.Convention.config Examples.Convention.small_group
     = Z.min (3 * (1 + 1)) 12.
Proof.
  apply (tables_round_down_for_cost Samples.Floor.dealers Samples.Floor.guest_group 1);
    reflexivity || lia.
Defined.

Lemma tables_repr_of_a_fraction_witness :
  tables_repr Samples.Floor.dealers Samples.Floor.half_table = inr "Island".
Proof.
  destruct (tables_repr_of_a_fraction Samples.Floor.dealers Samples.Floor.half_table
              [(1, "Single Table"); (2, "Double Table")] (3, "Island") eq_refl)
    as [_ Hfraction].
  apply Hfraction; [discriminate | reflexivity | reflexivity].
Defined.

End DealersSpec.

(** ** What a badge costs *)

Module BadgeCostSpec.
Import Py BadgeCost.

Section WithConfig.
Variable c : Config.

(** X24: after the presave adjustment [not_attending_need_not_pay], an
    attendee marked as not attending, with a badge that does not come with
    a shirt, owes nothing for the badge, and the reason is recorded. *)
Theorem not_attending_owes_nothing (a : Attendee) :
  badge_status a = NOT_ATTENDING c ->
  paid_for_a_shirt c a = false ->
  badge_cost c (not_attending_need_not_pay c a) = inr 0
  /\ comped_reason (not_attending_need_not_pay c a)
     = "Automated: Not Attending badge status.".
Proof.
  intros Hstatus Hshirt. apply Z.eqb_eq in Hstatus.
  unfold not_attending_need_not_pay. rewrite Hstatus. split; [| reflexivity].
  unfold paid_for_a_shirt, contains in Hshirt. simpl in Hshirt.
  unfold badge_cost, contains. simpl. rewrite Z.eqb_refl, Hshirt. reflexivity.
Qed.

(** X25: with prices that are not negative, an attendee who has to pay and
    has no overridden price is never charged a negative amount for the
    badge, whatever the age discount. *)
Theorem badge_cost_not_negative (a : Attendee) (cost : Z) :
  (forall registered, 0 <= get_attendee_price c registered) ->
  (forall registered, 0 <= get_oneday_price c registered) ->
  (forall badge_type price, BADGE_TYPE_PRICES c !! badge_type = Some price -> 0 <= price) ->
  Plugin.paid (row a) <> Plugin.NEED_NOT_PAY (base c) ->
  Plugin.overridden_price (row a) = None ->
  badge_cost c a = inr cost ->
  0 <= cost.
Proof.
  intros Hatt Hday Htype Hpaid Hover. apply Z.eqb_neq in Hpaid.
  unfold badge_cost. rewrite Hpaid, Hover. simpl.
  destruct (Plugin.badge_type (row a) =? ONE_DAY_BADGE c).
  { intros H. injection H as <-. apply Hday. }
  destruct (is_presold_oneday a).
  { destruct (Plugin.age_discount (base c) (row a)) as [e|d]; simpl; [discriminate |].
    intros H. injection H as <-. apply Z.le_max_l. }
  unfold getitem.
  destruct (BADGE_TYPE_PRICES c !! Plugin.badge_type (row a)) as [price|] eqn:Hprice.
  { rewrite bool_decide_eq_true_2 by (now exists price). simpl.
    intros H. injection H as <-. now apply (Htype _ _ Hprice). }
  rewrite bool_decide_eq_false_2 by (intros [price H]; discriminate).
  destruct (Plugin.age_discount (base c) (row a)) as [e|d]; simpl; [discriminate |].
  destruct (d =? 0); simpl; intros H; injection H as <-;
    [apply Hatt | apply Z.le_max_l].
Qed.

(** X26: for an attendee who has to pay, with no overridden price, whose
    badge is not a one-day badge and has no price of its own, the cost
    needs the age discount: where [age_discount] raises, [badge_cost]
    raises the same. *)
Theorem badge_cost_raises_with_age_discount (a : Attendee) (e : exn) :
  Plugin.paid (row a) <> Plugin.NEED_NOT_PAY (base c) ->
  Plugin.overridden_price (row a) = None ->
  Plugin.badge_type (row a) <> ONE_DAY_BADGE c ->
  BADGE_TYPE_PRICES c !! Plugin.badge_type (row a) = None ->
  Plugin.age_discount (base c) (row a) = inl e ->
  badge_cost c a = inl e.
Proof.
  intros Hpaid Hover Hday Hprice Hage.
  apply Z.eqb_neq in Hpaid, Hday.
  unfold badge_cost. rewrite Hpaid, Hover, Hday, Hprice, Hage. simpl.
  destruct (is_presold_oneday a); reflexivity.
Qed.

End WithConfig.

Lemma not_attending_owes_nothing_witness :
  badge_cost Samples.Floor.prices
    (not_attending_need_not_pay Samples.Floor.prices Samples.Floor.stays_at_home)
  = inr 0
  /\ comped_reason
       (not_attending_need_not_pay Samples.Floor.prices Samples.Floor.stays_at_home)
     = "Automated: Not Attending badge status.".
Proof.
  apply (not_attending_owes_nothing Samples.Floor.prices Samples.Floor.stays_at_home);
    reflexivity.
Defined.

Lemma badge_cost_not_negative_witness :
  badge_cost Samples.Floor.prices Samples.Floor.stays_at_home = inr 6000 /\ 0 <= 6000.
Proof.
  split; [reflexivity |].
  apply (badge_cost_not_negative Samples.Floor.prices Samples.Floor.stays_at_home 6000).
  - intros registered. simpl. lia.
  - intros registered. simpl. lia.
  - intros badge_type price. simpl. intros Hprice.
    apply lookup_insert_Some in Hprice as [[_ <-] | [_ Hprice]]; [lia |].
    rewrite lookup_empty in Hprice. discriminate.
  - discriminate.
  - reflexivity.
  - reflexivity.
Defined.

Lemma badge_cost_raises_with_age_discount_witness :
  badge_cost Samples.Floor.prices Samples.Floor.child_at_the_door
  = inl (UnboundLocalError "discount").
Proof.
  apply (badge_cost_raises_with_age_discount Samples.Floor.prices
           Samples.Floor.child_at_the_door);
    [discriminate | reflexivity | discriminate | reflexivity | reflexivity].
Defined.

End BadgeCostSpec.
